(** * Coderr marketplace backend: the Offer / OfferDetail / Order / Review
      lifecycle of [sales_app/api], embedded over an explicit relational store.

    The embedding follows the layers of the application:
    - the tables of [sales_app.models] and [user_auth_app.models] as finite
      maps from primary key to row;
    - a state-and-exception monad for code that writes to the store and may
      raise (writes made before a raise stay in the store: the settings do
      not enable [ATOMIC_REQUESTS] and no code path opens a transaction);
    - the permission classes of [permissions.py];
    - the serializers of [serializers.py];
    - the views of [views.py], with the request pipeline of the generic
      views (authentication result, permission checks, validation, handler).

    Timestamps, the uploaded image of an offer, pagination, filtering and
    throttling are not part of the embedding. *)

From stdpp Require Import gmap strings list fin_maps.
From Stdlib Require Import ZArith QArith Qabs Lia.

Local Open Scope Z_scope.

(** ** Tables *)

(** Modelled from the spec: [sales_app/models.py] and
    [user_auth_app/models.py] are absent.  The rows carry the attributes the
    serializers, the tests and section 3 of the specification name.  Prices
    are decimal amounts with two places, kept as a number of hundredths. *)

Inductive OfferType := basic | standard | premium.

Inductive OrderStatus := IN_PROGRESS | COMPLETED | CANCELLED.

Module UserProfile.
Record t := mk { user : Z; type : string }.
End UserProfile.

Module Offer.
Record t := mk { user_profile : Z; title : string; description : string }.
End Offer.

Module OfferDetail.
Record t := mk {
    offer : Z;
    title : string;
    revisions : Z;
    delivery_time_in_days : Z;
    price : Z;
    features : list string;
    offer_type : OfferType }.
End OfferDetail.

Module Order.
Record t := mk { customer_user : Z; offer_detail : Z; status : OrderStatus }.
End Order.

Module Review.
Record t := mk {
    business_user : Z;
    reviewer : Z;
    rating : Z;
    description : string }.
End Review.

Record Store := mkStore {
  UserProfile_objects : gmap Z UserProfile.t;
  Offer_objects : gmap Z Offer.t;
  OfferDetail_objects : gmap Z OfferDetail.t;
  Order_objects : gmap Z Order.t;
  Review_objects : gmap Z Review.t }.

Definition empty_store : Store := mkStore ∅ ∅ ∅ ∅ ∅.

#[global] Instance OfferType_eq_dec : EqDecision OfferType.
Proof. solve_decision. Defined.

#[global] Instance OrderStatus_eq_dec : EqDecision OrderStatus.
Proof. solve_decision. Defined.

Definition OfferType_to_nat (t : OfferType) : nat :=
  match t with basic => 0 | standard => 1 | premium => 2 end.

Definition OfferType_of_nat (n : nat) : option OfferType :=
  match n with
  | O => Some basic
  | S O => Some standard
  | S (S O) => Some premium
  | _ => None
  end.

#[global] Instance OfferType_countable : Countable OfferType.
Proof.
  refine (inj_countable OfferType_to_nat OfferType_of_nat _).
  intros []; reflexivity.
Defined.

#[global] Instance UserProfile_eq_dec : EqDecision UserProfile.t.
Proof. solve_decision. Defined.

#[global] Instance Offer_eq_dec : EqDecision Offer.t.
Proof. solve_decision. Defined.

#[global] Instance OfferDetail_eq_dec : EqDecision OfferDetail.t.
Proof. solve_decision. Defined.

#[global] Instance Order_eq_dec : EqDecision Order.t.
Proof. solve_decision. Defined.

#[global] Instance Review_eq_dec : EqDecision Review.t.
Proof. solve_decision. Defined.

(** The primary key given to the next inserted row: one more than the
    largest key in the table (keys start at 1). *)
Definition next_id {A} (m : gmap Z A) : Z :=
  1 + map_fold (λ k _ acc, Z.max k acc) 0 m.

(** ** Exceptions and the store monad *)

Inductive Exception :=
| IntegrityError
| DoesNotExist
| ValidationError (detail : string)
| NotAuthenticated
| PermissionDenied (detail : string)
| NotFound (detail : string).

#[global] Instance Exception_eq_dec : EqDecision Exception.
Proof. solve_decision. Defined.

(** HTTP status the exception handler of the framework answers with. *)
Definition status_code (e : Exception) : Z :=
  match e with
  | ValidationError _ => 400
  | NotAuthenticated => 401
  | PermissionDenied _ => 403
  | NotFound _ => 404
  | IntegrityError | DoesNotExist => 500
  end.

Inductive Outcome (A : Type) :=
| Return (a : A)
| Raise (e : Exception).
Arguments Return {A} a.
Arguments Raise {A} e.

(** A computation reads and writes the store and returns or raises; the
    store it leaves behind is kept in both cases. *)
Definition M (A : Type) : Type := Store → Store * Outcome A.

Definition ret {A} (a : A) : M A := λ st, (st, Return a).

Definition raise {A} (e : Exception) : M A := λ st, (st, Raise e).

Definition bind {A B} (c : M A) (k : A → M B) : M B :=
  λ st, match c st with
        | (st', Return a) => k a st'
        | (st', Raise e) => (st', Raise e)
        end.

(** [try: c except e => h]: run [c]; if it raises exactly [e], raise with
    the handler's exception instead (every handler of the source re-raises). *)
Definition try_except {A} (c : M A) (e : Exception) (h : Exception) : M A :=
  λ st, match c st with
        | (st', Raise e') =>
            if decide (e' = e) then (st', Raise h) else (st', Raise e')
        | r => r
        end.

#[global] Instance M_ret : MRet M := @ret.

#[global] Instance M_bind : MBind M := λ A B k c, bind c k.

(** [for x in l: body x], stopping at the first raise. *)
Fixpoint for_each {A} (l : list A) (body : A → M unit) : M unit :=
  match l with
  | [] => ret tt
  | x :: l' => body x;; for_each l' body
  end.

(** ** Requests *)

Inductive Method := GET | HEAD | OPTIONS | POST | PUT | PATCH | DELETE.

#[global] Instance Method_eq_dec : EqDecision Method.
Proof. solve_decision. Defined.

Definition SAFE_METHODS : list Method := [GET; HEAD; OPTIONS].

Definition is_safe (m : Method) : bool := bool_decide (m ∈ SAFE_METHODS).

(** An account as token authentication resolves it; [userprofile] is the
    reverse one-to-one accessor, holding the primary key and the row of the
    profile when one exists. *)
Record User := mkUser {
  is_staff : bool;
  is_superuser : bool;
  userprofile : option (Z * UserProfile.t) }.

(** [request.user]: the anonymous user or an authenticated account. *)
Inductive RequestUser :=
| AnonymousUser
| Authenticated (u : User).

Definition is_authenticated (u : RequestUser) : bool :=
  match u with AnonymousUser => false | Authenticated _ => true end.

(** [getattr(request.user, "userprofile", None)] *)
Definition getattr_userprofile (u : RequestUser) : option (Z * UserProfile.t) :=
  match u with
  | AnonymousUser => None
  | Authenticated a => userprofile a
  end.

Record Request := mkRequest { method : Method; user : RequestUser }.

(** ** Managers: the queries and writes the application issues *)

Definition gets {A} (f : Store → A) : M A := λ st, (st, Return (f st)).

Definition with_Offer_objects (f : gmap Z Offer.t → gmap Z Offer.t)
    (st : Store) : Store :=
  mkStore (UserProfile_objects st) (f (Offer_objects st))
          (OfferDetail_objects st) (Order_objects st) (Review_objects st).

Definition with_OfferDetail_objects
    (f : gmap Z OfferDetail.t → gmap Z OfferDetail.t) (st : Store) : Store :=
  mkStore (UserProfile_objects st) (Offer_objects st)
          (f (OfferDetail_objects st)) (Order_objects st) (Review_objects st).

Definition with_Order_objects (f : gmap Z Order.t → gmap Z Order.t)
    (st : Store) : Store :=
  mkStore (UserProfile_objects st) (Offer_objects st)
          (OfferDetail_objects st) (f (Order_objects st)) (Review_objects st).

Definition with_Review_objects (f : gmap Z Review.t → gmap Z Review.t)
    (st : Store) : Store :=
  mkStore (UserProfile_objects st) (Offer_objects st)
          (OfferDetail_objects st) (Order_objects st) (f (Review_objects st)).

(** Validated input of the offer serializers: Python dicts that hold a key
    only when the request carried the field. *)
Module DetailData.
Record t := mk {
    title : option string;
    revisions : option Z;
    delivery_time_in_days : option Z;
    price : option Z;
    features : option (list string);
    offer_type : option OfferType }.
End DetailData.

Module OfferData.
Record t := mk {
    title : option string;
    description : option string;
    details : option (list DetailData.t) }.
End OfferData.

Module OrderData.
Record t := mk { offer_detail_id : Z; status : option OrderStatus }.
End OrderData.

Module ReviewData.
Record t := mk { business_user : Z; rating : Z; description : string }.
End ReviewData.

(** Modelled from the spec: [sales_app/models.py] is absent.  Section 3 lists
    every attribute of an entity without a default, so a row is built only
    when the keyword arguments carry all of them; the insert is refused
    otherwise. *)
Definition Offer_of_data (user_profile : Z) (d : OfferData.t) : option Offer.t :=
  t ← OfferData.title d;
  ds ← OfferData.description d;
  Some (Offer.mk user_profile t ds).

Definition OfferDetail_of_data (offer : Z) (d : DetailData.t)
    : option OfferDetail.t :=
  t ← DetailData.title d;
  r ← DetailData.revisions d;
  dt ← DetailData.delivery_time_in_days d;
  p ← DetailData.price d;
  f ← DetailData.features d;
  ty ← DetailData.offer_type d;
  Some (OfferDetail.mk offer t r dt p f ty).

(** Modelled from the spec: [sales_app/models.py] is absent.  The store's
    constraint on [OfferDetail]: the tier is unique within its parent offer. *)
Definition tier_taken (offer : Z) (ty : OfferType)
    (m : gmap Z OfferDetail.t) : bool :=
  bool_decide (map_Exists (λ _ r, OfferDetail.offer r = offer
                                  ∧ OfferDetail.offer_type r = ty) m).

(** [Offer.objects.create(user_profile=..., **validated_data)] *)
Definition Offer_objects_create (user_profile : Z) (d : OfferData.t)
    : M (Z * Offer.t) :=
  λ st,
    match Offer_of_data user_profile d with
    | None => (st, Raise IntegrityError)
    | Some row =>
        let pk := next_id (Offer_objects st) in
        (with_Offer_objects (insert pk row) st, Return (pk, row))
    end.

(** [OfferDetail.objects.create(offer=..., **detail)] *)
Definition OfferDetail_objects_create (offer : Z) (d : DetailData.t)
    : M (Z * OfferDetail.t) :=
  λ st,
    match OfferDetail_of_data offer d with
    | None => (st, Raise IntegrityError)
    | Some row =>
        if tier_taken offer (OfferDetail.offer_type row) (OfferDetail_objects st)
        then (st, Raise IntegrityError)
        else
          let pk := next_id (OfferDetail_objects st) in
          (with_OfferDetail_objects (insert pk row) st, Return (pk, row))
    end.

(** [OfferDetail.objects.get(id=...)] *)
Definition OfferDetail_objects_get (pk : Z) : M (Z * OfferDetail.t) :=
  λ st,
    match OfferDetail_objects st !! pk with
    | Some row => (st, Return (pk, row))
    | None => (st, Raise DoesNotExist)
    end.

(** [instance.save()] and [detail.save()] on a loaded object: the row under
    the object's primary key is overwritten with the object's attributes. *)
Definition Offer_save (obj : Z * Offer.t) : M unit :=
  λ st, (with_Offer_objects (insert obj.1 obj.2) st, Return tt).

Definition OfferDetail_save (obj : Z * OfferDetail.t) : M unit :=
  λ st, (with_OfferDetail_objects (insert obj.1 obj.2) st, Return tt).

(** Modelled from the spec: the default of [Order.status] is declared in the
    absent [sales_app/models.py]; a new order starts in progress. *)
Definition Order_status_default : OrderStatus := IN_PROGRESS.

(** [Order.objects.create(customer_user=..., offer_detail=...)] *)
Definition Order_objects_create (customer_user : Z) (offer_detail : Z)
    : M (Z * Order.t) :=
  λ st,
    let pk := next_id (Order_objects st) in
    let row := Order.mk customer_user offer_detail Order_status_default in
    (with_Order_objects (insert pk row) st, Return (pk, row)).

(** [Review.objects.filter(business_user=..., reviewer=...).exists()] *)
Definition Review_exists (business_user reviewer : Z) (st : Store) : bool :=
  bool_decide (map_Exists (λ _ r, Review.business_user r = business_user
                                  ∧ Review.reviewer r = reviewer)
                          (Review_objects st)).

(** [Review.objects.create(reviewer=..., **validated_data)] *)
Definition Review_objects_create (reviewer : Z) (d : ReviewData.t)
    : M (Z * Review.t) :=
  λ st,
    let pk := next_id (Review_objects st) in
    let row := Review.mk (ReviewData.business_user d) reviewer
                         (ReviewData.rating d) (ReviewData.description d) in
    (with_Review_objects (insert pk row) st, Return (pk, row)).

(** [instance.details.all()]: the details whose parent is the offer. *)
Definition details_of (offer : Z) (st : Store) : list (Z * OfferDetail.t) :=
  map_to_list (filter (λ kv, OfferDetail.offer kv.2 = offer)
                      (OfferDetail_objects st)).

(** ** permissions.py *)

Module PublicReadBusinessWrite.
Definition has_permission (request : Request) : bool :=
    if is_safe (method request) then true
    else if negb (is_authenticated (user request)) then false
    else match getattr_userprofile (user request) with
         | Some (_, p) => bool_decide (UserProfile.type p = "business")
         | None => false
         end.
End PublicReadBusinessWrite.

Module IsAuthenticated.
Definition has_permission (request : Request) : bool :=
    is_authenticated (user request).
End IsAuthenticated.

Module IsUserWithProfile.
Definition has_permission (request : Request) : bool :=
    if is_safe (method request) then true
    else if negb (is_authenticated (user request)) then false
    else match getattr_userprofile (user request) with
         | Some (_, p) => bool_decide (UserProfile.type p = "customer")
         | None => false
         end.
End IsUserWithProfile.

Module IsBusinessOwnerOrReadOnly.
Definition has_object_permission (request : Request) (obj : Z * Offer.t)
      : bool :=
    if is_safe (method request) then true
    else if negb (is_authenticated (user request)) then false
    else match getattr_userprofile (user request) with
         | None => false
         | Some (pk, _) => bool_decide (pk = Offer.user_profile obj.2)
         end.
End IsBusinessOwnerOrReadOnly.

Module IsAuthenticatedForReadAndBusinessOwnerForWrite.
Definition has_permission (request : Request) : bool :=
    is_authenticated (user request).

Definition has_object_permission (request : Request) (obj : Z * Offer.t)
      : bool :=
    if is_safe (method request) then true
    else match getattr_userprofile (user request) with
         | None => false
         | Some (pk, _) => bool_decide (pk = Offer.user_profile obj.2)
         end.
End IsAuthenticatedForReadAndBusinessOwnerForWrite.

(** [APIView.permission_denied]: with token authentication configured, a
    request that carried no valid token is answered as unauthenticated, any
    other refused request as forbidden. *)
Definition permission_denied {A} (request : Request) : M A :=
  if is_authenticated (user request)
  then raise (PermissionDenied "You do not have permission to perform this action.")
  else raise NotAuthenticated.

Definition check_permissions (has_permission : Request → bool)
    (request : Request) : M unit :=
  if has_permission request then ret tt else permission_denied request.

Definition check_object_permissions {O}
    (has_object_permission : Request → O → bool)
    (request : Request) (obj : O) : M unit :=
  if has_object_permission request obj then ret tt
  else permission_denied request.

(** ** serializers.py *)

(** A hyperlinked identity field: the named route and the primary key it
    points at. *)
Record Hyperlink := mkHyperlink { view_name : string; pk_of : Z }.

(** [OfferDetailLightSerializer]: fields [id] and [url] only. *)
Module OfferDetailLight.
Record t := mk { id : Z; url : Hyperlink }.
End OfferDetailLight.

Definition OfferDetailLightSerializer_to_representation
    (obj : Z * OfferDetail.t) : OfferDetailLight.t :=
  OfferDetailLight.mk obj.1 (mkHyperlink "offer-detail-detail" obj.1).

(** [OfferDetailSerializer]: every attribute, no [url]. *)
Module OfferDetailFull.
Record t := mk {
    id : Z;
    title : string;
    revisions : Z;
    delivery_time_in_days : Z;
    price : Z;
    features : list string;
    offer_type : OfferType }.
End OfferDetailFull.

Definition OfferDetailSerializer_to_representation
    (obj : Z * OfferDetail.t) : OfferDetailFull.t :=
  OfferDetailFull.mk obj.1 (OfferDetail.title obj.2)
    (OfferDetail.revisions obj.2) (OfferDetail.delivery_time_in_days obj.2)
    (OfferDetail.price obj.2) (OfferDetail.features obj.2)
    (OfferDetail.offer_type obj.2).

(** [min(xs) if xs else None] *)
Definition min_or_None (xs : list Z) : option Z :=
  match xs with
  | [] => None
  | x :: xs' => Some (foldr Z.min x xs')
  end.

(** [OfferBaseSerializer.get_min_price]; the annotation of the list view is
    the same minimum over the same rows. *)
Definition get_min_price (st : Store) (obj : Z * Offer.t) : option Z :=
  min_or_None ((λ d, OfferDetail.price d.2) <$> details_of obj.1 st).

Definition get_min_delivery_time (st : Store) (obj : Z * Offer.t) : option Z :=
  min_or_None ((λ d, OfferDetail.delivery_time_in_days d.2) <$> details_of obj.1 st).

(** The offer representations, generic in the shape of a nested detail. *)
Module OfferRepr.
Record t (D : Type) := mk {
    id : Z;
    title : string;
    description : string;
    details : list D;
    user : Z;
    min_price : option Z;
    min_delivery_time : option Z }.
Arguments mk {D}.
Arguments id {D}.
Arguments title {D}.
Arguments description {D}.
Arguments details {D}.
Arguments user {D}.
Arguments min_price {D}.
Arguments min_delivery_time {D}.
End OfferRepr.

Definition OfferBaseSerializer_to_representation {D}
    (detail_repr : Z * OfferDetail.t → D) (st : Store) (obj : Z * Offer.t)
    : OfferRepr.t D :=
  OfferRepr.mk obj.1 (Offer.title obj.2) (Offer.description obj.2)
    (detail_repr <$> details_of obj.1 st)
    (Offer.user_profile obj.2)
    (get_min_price st obj) (get_min_delivery_time st obj).

(** [OfferListSerializer]: [details = OfferDetailLightSerializer(many=True)] *)
Definition OfferListSerializer_to_representation :=
  OfferBaseSerializer_to_representation OfferDetailLightSerializer_to_representation.

(** [OfferWriteResponseSerializer]: [details = OfferDetailSerializer(many=True)] *)
Definition OfferWriteResponseSerializer_to_representation :=
  OfferBaseSerializer_to_representation OfferDetailSerializer_to_representation.

(** Validation of the write serializer's input.  [details =
    OfferDetailSerializer(many=True)] is declared without [allow_empty], whose
    default lets the empty list through; a field may be left out only in a
    partial update. *)
Definition details_allow_empty : bool := true.

Definition detail_is_complete (d : DetailData.t) : bool :=
  bool_decide (is_Some (DetailData.title d)
               ∧ is_Some (DetailData.revisions d)
               ∧ is_Some (DetailData.delivery_time_in_days d)
               ∧ is_Some (DetailData.price d)
               ∧ is_Some (DetailData.features d)
               ∧ is_Some (DetailData.offer_type d)).

Definition OfferCreateSerializer_is_valid (partial : bool) (data : OfferData.t)
    : M OfferData.t :=
  if negb partial && negb (bool_decide (is_Some (OfferData.title data)
                                        ∧ is_Some (OfferData.description data)
                                        ∧ is_Some (OfferData.details data)))
  then raise (ValidationError "This field is required.")
  else
    match OfferData.details data with
    | Some l =>
        if negb details_allow_empty && bool_decide (l = [])
        then raise (ValidationError "This list may not be empty.")
        else if negb partial && negb (forallb detail_is_complete l)
        then raise (ValidationError "This field is required.")
        else ret data
    | None => ret data
    end.

Definition Create_Detail_failed : Exception :=
  ValidationError "Create Detail failed.".

(** The block both [create] and [update] run for a nested detail to insert:
    [try: OfferDetail.objects.create(offer=..., **detail)
     except IntegrityError: raise ValidationError(...)]. *)
Definition create_detail (offer : Z) (detail : DetailData.t) : M unit :=
  try_except (OfferDetail_objects_create offer detail;; ret tt)
             IntegrityError Create_Detail_failed.

(** [OfferCreateSerializer.create] *)
Definition OfferCreateSerializer_create (request : Request)
    (validated_data : OfferData.t) : M (Z * Offer.t) :=
  match getattr_userprofile (user request) with
  | None => raise (ValidationError "User Profile does not exist.")
  | Some (user_profile, _) =>
      let details := default [] (OfferData.details validated_data) in
      offer ← Offer_objects_create user_profile validated_data;
      for_each details (create_detail offer.1);;
      ret offer
  end.

(** [for attr, value in data.items(): setattr(obj, attr, value)] *)
Definition setattrs_Offer (data : OfferData.t) (obj : Offer.t) : Offer.t :=
  Offer.mk (Offer.user_profile obj)
    (default (Offer.title obj) (OfferData.title data))
    (default (Offer.description obj) (OfferData.description data)).

Definition setattrs_OfferDetail (data : DetailData.t) (obj : OfferDetail.t)
    : OfferDetail.t :=
  OfferDetail.mk (OfferDetail.offer obj)
    (default (OfferDetail.title obj) (DetailData.title data))
    (default (OfferDetail.revisions obj) (DetailData.revisions data))
    (default (OfferDetail.delivery_time_in_days obj)
             (DetailData.delivery_time_in_days data))
    (default (OfferDetail.price obj) (DetailData.price data))
    (default (OfferDetail.features obj) (DetailData.features data))
    (default (OfferDetail.offer_type obj) (DetailData.offer_type data)).

(** [{d.offer_type: d for d in instance.details.all()}]: a later row with
    the same tier replaces an earlier one. *)
Definition by_offer_type (l : list (Z * OfferDetail.t))
    : gmap OfferType (Z * OfferDetail.t) :=
  foldl (λ acc d, <[OfferDetail.offer_type d.2 := d]> acc) ∅ l.

(** The loop over [details_data] of [OfferCreateSerializer.update].  The
    dictionary is filled once before the loop; the objects it holds are the
    ones the loop mutates and saves. *)
Fixpoint update_details (instance : Z)
    (existing_details : gmap OfferType (Z * OfferDetail.t))
    (details_data : list DetailData.t) : M unit :=
  match details_data with
  | [] => ret tt
  | detail_data :: rest =>
      match DetailData.offer_type detail_data ≫= (existing_details !!.) with
      | Some detail =>
          let detail' := (detail.1, setattrs_OfferDetail detail_data detail.2) in
          OfferDetail_save detail';;
          update_details instance
            (<[OfferDetail.offer_type detail'.2 := detail']> existing_details)
            rest
      | None =>
          create_detail instance detail_data;;
          update_details instance existing_details rest
      end
  end.

(** [OfferCreateSerializer.update] *)
Definition OfferCreateSerializer_update (instance : Z * Offer.t)
    (validated_data : OfferData.t) : M (Z * Offer.t) :=
  let instance' := (instance.1, setattrs_Offer validated_data instance.2) in
  Offer_save instance';;
  match OfferData.details validated_data with
  | Some details_data =>
      existing_details ← gets (λ st, by_offer_type (details_of instance.1 st));
      update_details instance.1 existing_details details_data;;
      ret instance'
  | None => ret instance'
  end.

(** [OrderSerializer.Meta.fields] *)
Definition OrderSerializer_fields : list string :=
  [ "id"; "title"; "customer_user"; "business_user"; "status"; "created_at";
    "updated_at"; "offer_detail_id"; "revisions"; "price";
    "delivery_time_in_days"; "features"; "offer_type" ].

(** [OrderSerializer.Meta.read_only_fields], and the method fields, which
    are read-only by construction. *)
Definition OrderSerializer_read_only_fields : list string :=
  [ "id"; "customer_user"; "created_at"; "updated_at" ].

Definition OrderSerializer_method_fields : list string :=
  [ "revisions"; "delivery_time_in_days"; "price"; "features"; "offer_type";
    "title"; "business_user" ].

(** The fields input is read from: the declared ones that are not read-only. *)
Definition OrderSerializer_writable_fields : list string :=
  filter (λ f, (f ∉ OrderSerializer_read_only_fields)
               ∧ (f ∉ OrderSerializer_method_fields))
         OrderSerializer_fields.

Section OrderInput.
  (** The request body is a JSON object: a dict from field name to a JSON
      value.  How the framework's [IntegerField] and the choice field of
      [status] read one value is left to the framework. *)
Context {JSON : Type}.
Variable IntegerField_to_internal_value : JSON → option Z.
Variable ChoiceField_to_internal_value : JSON → option OrderStatus.

  (** [StrictModelSerializer.to_internal_value]: the received keys outside
      the declared fields. *)
Definition unexpected_fields (fields : list string) (data : gmap string JSON)
      : gset string :=
    dom data ∖ list_to_set fields.

  (** [super().to_internal_value(data)] for [OrderSerializer] on a create:
      each writable field is looked up under its own name; a field error is
      collected per field and raised as one validation error. *)
Definition read_offer_detail_id (data : gmap string JSON) : string + Z :=
    match data !! "offer_detail_id" with
    | None => inl "offer_detail_id: This field is required."
    | Some v =>
        match IntegerField_to_internal_value v with
        | None => inl "offer_detail_id: A valid integer is required."
        | Some n => inr n
        end
    end.

Definition read_status (data : gmap string JSON)
      : string + option OrderStatus :=
    match data !! "status" with
    | None => inr None
    | Some v =>
        match ChoiceField_to_internal_value v with
        | None => inl "status: Not a valid choice."
        | Some s => inr (Some s)
        end
    end.

Definition OrderSerializer_to_internal_value (data : gmap string JSON)
      : M OrderData.t :=
    if decide (unexpected_fields OrderSerializer_fields data ≠ ∅)
    then raise (ValidationError "Unexpected fields")
    else
      match read_status data, read_offer_detail_id data with
      | inr s, inr n => ret (OrderData.mk n s)
      | inl e, inr _ => raise (ValidationError e)
      | inr _, inl e => raise (ValidationError e)
      | inl e1, inl e2 => raise (ValidationError (e1 +:+ "; " +:+ e2))
      end.
End OrderInput.

(** [OrderSerializer.create] *)
Definition OrderSerializer_create (request : Request)
    (validated_data : OrderData.t) : M (Z * Order.t) :=
  match getattr_userprofile (user request) with
  | None => raise (ValidationError "User Profile does not exist.")
  | Some (customer_user, _) =>
      let offer_detail_id := OrderData.offer_detail_id validated_data in
      detail ← try_except (OfferDetail_objects_get offer_detail_id)
                          DoesNotExist (NotFound "OfferDetail not found.");
      Order_objects_create customer_user detail.1
  end.

(** [obj.offer_detail]: the related row, fetched from the store when the
    attribute is read. *)
Definition related_offer_detail (st : Store) (obj : Order.t)
    : option OfferDetail.t :=
  OfferDetail_objects st !! Order.offer_detail obj.

Definition get_revisions (st : Store) (obj : Order.t) : option Z :=
  OfferDetail.revisions <$> related_offer_detail st obj.

Definition get_title (st : Store) (obj : Order.t) : option string :=
  OfferDetail.title <$> related_offer_detail st obj.

Definition get_price (st : Store) (obj : Order.t) : option Z :=
  OfferDetail.price <$> related_offer_detail st obj.

Definition get_delivery_time_in_days (st : Store) (obj : Order.t) : option Z :=
  OfferDetail.delivery_time_in_days <$> related_offer_detail st obj.

Definition get_features (st : Store) (obj : Order.t) : option (list string) :=
  OfferDetail.features <$> related_offer_detail st obj.

Definition get_offer_type (st : Store) (obj : Order.t) : option OfferType :=
  OfferDetail.offer_type <$> related_offer_detail st obj.

(** [obj.offer_detail.offer.user_profile.id] *)
Definition get_business_user (st : Store) (obj : Order.t) : option Z :=
  d ← related_offer_detail st obj;
  o ← Offer_objects st !! OfferDetail.offer d;
  Some (Offer.user_profile o).

(** What [OrderSerializer] returns for an order; [offer_detail_id] is
    write-only and does not appear. *)
Module OrderRepr.
Record t := mk {
    id : Z;
    title : string;
    customer_user : Z;
    business_user : Z;
    status : OrderStatus;
    revisions : Z;
    price : Z;
    delivery_time_in_days : Z;
    features : list string;
    offer_type : OfferType }.
End OrderRepr.

(** The representation exists when every related row the method fields
    dereference is found. *)
Definition OrderSerializer_to_representation (st : Store) (obj : Z * Order.t)
    : option OrderRepr.t :=
  t ← get_title st obj.2;
  b ← get_business_user st obj.2;
  r ← get_revisions st obj.2;
  p ← get_price st obj.2;
  dt ← get_delivery_time_in_days st obj.2;
  f ← get_features st obj.2;
  ty ← get_offer_type st obj.2;
  Some (OrderRepr.mk obj.1 t (Order.customer_user obj.2) b (Order.status obj.2)
                     r p dt f ty).

Definition already_reviewed : Exception :=
  ValidationError "You have already submitted a review for this business user.".

(** [ReviewSerializer.create] *)
Definition ReviewSerializer_create (request : Request)
    (validated_data : ReviewData.t) : M (Z * Review.t) :=
  if negb (is_authenticated (user request))
  then raise (PermissionDenied "Authentication required.")
  else
    match getattr_userprofile (user request) with
    | None => raise (PermissionDenied "User profile not found.")
    | Some (user_profile, _) =>
        let business_user := ReviewData.business_user validated_data in
        dup ← gets (Review_exists business_user user_profile);
        if (dup : bool)
        then raise already_reviewed
        else Review_objects_create user_profile validated_data
    end.

(** Modelled from the spec: [sales_app/models.py] is absent.
    [serializer.is_valid(raise_exception=True)] on the body of a review.
    [business_user] is a related field over the profiles: its key has to
    name a row, and section 4.3 wants the row to be a business profile.
    Section 3 gives [rating] the range 1 to 5. *)
Definition ReviewSerializer_is_valid (data : ReviewData.t)
    : M ReviewData.t :=
  found ← gets (λ st, UserProfile_objects st !! ReviewData.business_user data);
  match found with
  | Some profile =>
      if bool_decide (UserProfile.type profile = "business")
      then
        if bool_decide (1 ≤ ReviewData.rating data ≤ 5)
        then ret data
        else raise (ValidationError "rating: Ensure this value is in range.")
      else
        raise (ValidationError "business_user: Invalid pk - object does not exist.")
  | None =>
      raise (ValidationError "business_user: Invalid pk - object does not exist.")
  end.

(** ** views.py *)

(** [GenericAPIView.get_object]: the row under the primary key of the URL,
    or not-found; then the object-level permission. *)
Definition get_object {A} (queryset : Store → gmap Z A)
    (has_object_permission : Request → Z * A → bool)
    (request : Request) (pk : Z) : M (Z * A) :=
  found ← gets (λ st, queryset st !! pk);
  match found with
  | None => raise (NotFound "Not found.")
  | Some row =>
      check_object_permissions has_object_permission request (pk, row);;
      ret (pk, row)
  end.

Module OfferListCreateView.
  (** [create]: the write serializer reads the input, the response
      serializer writes the answer. *)
Definition post (request : Request) (data : OfferData.t)
      : M (OfferRepr.t OfferDetailFull.t) :=
    check_permissions PublicReadBusinessWrite.has_permission request;;
    validated_data ← OfferCreateSerializer_is_valid false data;
    offer ← OfferCreateSerializer_create request validated_data;
    gets (λ st, OfferWriteResponseSerializer_to_representation st offer).
End OfferListCreateView.

Module OfferDetailView.
Definition has_permission :=
    IsAuthenticatedForReadAndBusinessOwnerForWrite.has_permission.
Definition has_object_permission :=
    IsAuthenticatedForReadAndBusinessOwnerForWrite.has_object_permission.

  (** [retrieve], answered with [OfferListSerializer]. *)
Definition get (request : Request) (pk : Z)
      : M (OfferRepr.t OfferDetailLight.t) :=
    check_permissions has_permission request;;
    instance ← get_object Offer_objects has_object_permission request pk;
    gets (λ st, OfferListSerializer_to_representation st instance).

  (** [update]; [partial] is set for PATCH. *)
Definition update (partial : bool) (request : Request) (pk : Z)
      (data : OfferData.t) : M (OfferRepr.t OfferDetailFull.t) :=
    check_permissions has_permission request;;
    instance ← get_object Offer_objects has_object_permission request pk;
    validated_data ← OfferCreateSerializer_is_valid partial data;
    offer ← OfferCreateSerializer_update instance validated_data;
    gets (λ st, OfferWriteResponseSerializer_to_representation st offer).
End OfferDetailView.

Module OrderListCreateView.
Definition get_queryset (request : Request) : M (list (Z * Order.t)) :=
    match getattr_userprofile (user request) with
    | None => raise (PermissionDenied "User profile not found.")
    | Some (user_profile, p) =>
        if decide (UserProfile.type p = "customer")
        then gets (λ st, map_to_list
               (filter (λ kv, Order.customer_user kv.2 = user_profile)
                       (Order_objects st)))
        else if decide (UserProfile.type p = "business")
        then gets (λ st, map_to_list
               (filter (λ kv, get_business_user st kv.2 = Some user_profile)
                       (Order_objects st)))
        else ret []
    end.

  (** Serialising one row of the list; a dangling reference raises. *)
Definition serialize (obj : Z * Order.t) : M OrderRepr.t :=
    r ← gets (λ st, OrderSerializer_to_representation st obj);
    match r with
    | Some x => ret x
    | None => raise DoesNotExist
    end.

Fixpoint serialize_many (l : list (Z * Order.t)) : M (list OrderRepr.t) :=
    match l with
    | [] => ret []
    | obj :: l' =>
        x ← serialize obj;
        xs ← serialize_many l';
        ret (x :: xs)
    end.

  (** [list]: a bare array, no pagination. *)
Definition get (request : Request) : M (list OrderRepr.t) :=
    check_permissions IsAuthenticated.has_permission request;;
    queryset ← get_queryset request;
    serialize_many queryset.

Section Post.
Context {JSON : Type}.
Variable IntegerField_to_internal_value : JSON → option Z.
Variable ChoiceField_to_internal_value : JSON → option OrderStatus.

    (** [create]: validate, save, answer with the created order. *)
Definition post (request : Request) (data : gmap string JSON)
        : M OrderRepr.t :=
      check_permissions IsAuthenticated.has_permission request;;
      validated_data ← OrderSerializer_to_internal_value
                         IntegerField_to_internal_value
                         ChoiceField_to_internal_value data;
      order ← OrderSerializer_create request validated_data;
      serialize order.
End Post.
End OrderListCreateView.

Module ReviewListCreateView.
  (** [get_permissions]: open for reading, [IsUserWithProfile] otherwise. *)
Definition has_permission (request : Request) : bool :=
    if is_safe (method request) then true
    else IsUserWithProfile.has_permission request.

(** [CreateModelMixin.create]: the body is validated, then saved. *)
Definition post (request : Request) (data : ReviewData.t)
      : M (Z * Review.t) :=
    check_permissions has_permission request;;
    validated_data ← ReviewSerializer_is_valid data;
    ReviewSerializer_create request validated_data.
End ReviewListCreateView.

(** ** Numbers of the statistics endpoint

    The database's [AVG] and Python's [round] work on binary64 floats.  A
    float is kept as the rational number it denotes.  The exponent range of
    the format is not modelled: the quotient of two 64-bit integers is a
    normal number. *)

Definition sum_Z (xs : list Z) : Z := foldr Z.add 0 xs.

(** Nearest integer to [n/d], ties to the even one. *)
Definition round_half_even (n : Z) (d : positive) : Z :=
  let q := n / Z.pos d in
  let r := n mod Z.pos d in
  match 2 * r ?= Z.pos d with
  | Lt => q
  | Gt => q + 1
  | Eq => if Z.even q then q else q + 1
  end.

(** The binary exponent of a positive fraction: the [e] with
    [2^e <= n/d < 2^(e+1)]. *)
Definition exponent (n : Z) (d : positive) : Z :=
  let l := Z.log2 n - Z.log2 (Z.pos d) in
  if n * 2 ^ Z.max 0 (- l) <? Z.pos d * 2 ^ Z.max 0 l then l - 1 else l.

(** The float nearest to a positive fraction, ties to even.  The significand
    has 53 bits: the fraction is scaled by a power of two to lie between
    [2^52] and [2^53], rounded to a whole number there and scaled back. *)
Definition binary64_pos (n : Z) (d : positive) : Q :=
  let e := exponent n d - 52 in
  let m := round_half_even (n * 2 ^ Z.max 0 (- e))
                           (Z.to_pos (Z.pos d * 2 ^ Z.max 0 e)) in
  Qmake (m * 2 ^ Z.max 0 e) (Z.to_pos (2 ^ Z.max 0 (- e))).

(** The float nearest to a rational, ties to even. *)
Definition binary64 (q : Q) : Q :=
  match Qnum q with
  | Z0 => 0%Q
  | Zpos _ => binary64_pos (Qnum q) (Qden q)
  | Zneg _ => Qopp (binary64_pos (- Qnum q) (Qden q))
  end.

(** [aggregate(avg_rating=Avg("rating"))["avg_rating"]]: null on no rows,
    else the sum of the ratings divided by their number as the database does
    it, in floating point.  The sum and the number of rows are whole numbers
    a float holds exactly, so the quotient is rounded once. *)
Definition Avg (xs : list Z) : option Q :=
  match xs with
  | [] => None
  | _ => Some (binary64 (Qmake (sum_Z xs) (Pos.of_nat (length xs))))
  end.

(** [round(x, 1)] of a float: the decimal with one digit after the point that
    is nearest to the exact value of [x], ties to the even digit, read back
    as a float. *)
Definition round_1 (x : Q) : Q :=
  binary64 (Qmake (round_half_even (10 * Qnum x) (Qden x)) 10).

(** Truth value of an optional number: [None] and zero are false. *)
Definition truthy (x : option Q) : bool :=
  match x with
  | None => false
  | Some q => negb (Qeq_bool q 0)
  end.

Module BaseInfo.
Record t := mk {
    review_count : Z;
    average_rating : Q;
    business_profile_count : Z;
    offer_count : Z }.
End BaseInfo.

Module BaseInfoView.
Definition ratings (st : Store) : list Z :=
    (λ kv, Review.rating kv.2) <$> map_to_list (Review_objects st).

Definition get (st : Store) : BaseInfo.t :=
    let average := Avg (ratings st) in
    let average_rating :=
      if truthy average then round_1 (default 0%Q average) else 0%Q in
    BaseInfo.mk
      (Z.of_nat (size (Review_objects st)))
      average_rating
      (Z.of_nat (size (filter (λ kv, UserProfile.type kv.2 = "business")
                              (UserProfile_objects st))))
      (Z.of_nat (size (Offer_objects st))).
End BaseInfoView.

(** ** Store invariants and notions the properties are stated with *)

(** At most one review per (business profile, reviewer) pair. *)
Definition one_review_per_pair (st : Store) : Prop :=
  ∀ i j x y,
    Review_objects st !! i = Some x → Review_objects st !! j = Some y →
    Review.business_user x = Review.business_user y →
    Review.reviewer x = Review.reviewer y → i = j.

(** Foreign keys of [OfferDetail] point at existing offers. *)
Definition details_reference_offers (st : Store) : Prop :=
  ∀ k d, OfferDetail_objects st !! k = Some d →
         is_Some (Offer_objects st !! OfferDetail.offer d).

(** The store's constraint: within an offer no two details share a tier. *)
Definition tier_unique_per_offer (st : Store) : Prop :=
  ∀ k1 k2 r1 r2,
    OfferDetail_objects st !! k1 = Some r1 →
    OfferDetail_objects st !! k2 = Some r2 →
    OfferDetail.offer r1 = OfferDetail.offer r2 →
    OfferDetail.offer_type r1 = OfferDetail.offer_type r2 → k1 = k2.

(** [m'] is [m] with one new row per element of [rows], and nothing else. *)
Definition extends_with (m m' : gmap Z OfferDetail.t)
    (rows : list OfferDetail.t) : Prop :=
  m ⊆ m'
  ∧ size m' = (size m + length rows)%nat
  ∧ (∀ row, row ∈ rows → ∃ k, m !! k = None ∧ m' !! k = Some row)
  ∧ (∀ k row, m' !! k = Some row → m !! k = Some row ∨ row ∈ rows).

(** All submitted details of tier [ty], applied in order to a row. *)
Definition apply_details (ty : OfferType) (ds : list DetailData.t)
    (row : OfferDetail.t) : OfferDetail.t :=
  foldl (λ r d, setattrs_OfferDetail d r) row
        (filter (λ d, DetailData.offer_type d = Some ty) ds).

(** A submitted detail the dictionary of [update] has no entry for. *)
Definition unmatched (E : gmap OfferType (Z * OfferDetail.t))
    (d : DetailData.t) : Prop :=
  DetailData.offer_type d ≫= (E !!.) = None.

#[global] Instance unmatched_dec E d : Decision (unmatched E d).
Proof. unfold unmatched. apply _. Defined.


(** The dictionary holds rows of the offer as the store has them, each
    under its own tier. *)
Definition dict_ok (o : Z) (E : gmap OfferType (Z * OfferDetail.t))
    (m : gmap Z OfferDetail.t) : Prop :=
  ∀ ty obj, E !! ty = Some obj →
    m !! obj.1 = Some obj.2 ∧ OfferDetail.offer obj.2 = o
    ∧ OfferDetail.offer_type obj.2 = ty.

(** A submitted detail whose tier no detail of the offer has. *)
Definition matches_no_existing (o : Z) (m : gmap Z OfferDetail.t)
    (d : DetailData.t) : Prop :=
  match DetailData.offer_type d with
  | Some ty => tier_taken o ty m = false
  | None => True
  end.

#[global] Instance matches_no_existing_dec o m d :
  Decision (matches_no_existing o m d).
Proof.
  unfold matches_no_existing. destruct (DetailData.offer_type d); apply _.
Defined.

(** ** A small marketplace, as the tests set one up *)

Module Sample.

Definition profile_business : Z * UserProfile.t :=
  (1, UserProfile.mk 10 "business").

Definition profile_customer : Z * UserProfile.t :=
  (2, UserProfile.mk 11 "customer").

Definition user_business : User := mkUser false false (Some profile_business).

Definition user_customer : User := mkUser false false (Some profile_customer).

Definition package (ty : OfferType) (price days : Z) : DetailData.t :=
  DetailData.mk (Some "Package") (Some 1) (Some days) (Some price)
                (Some ["source files"]) (Some ty).

Definition logo_offer (ds : list DetailData.t) : OfferData.t :=
  OfferData.mk (Some "Logo Design") (Some "I design a logo") (Some ds).

Definition profiles_only : Store :=
  mkStore (<[1 := profile_business.2]> (<[2 := profile_customer.2]> ∅))
          ∅ ∅ ∅ ∅.

(** The business publishes an offer with a basic and a standard package. *)
Definition store : Store :=
  (OfferListCreateView.post (mkRequest POST (Authenticated user_business))
     (logo_offer [package basic 5000 3; package standard 9000 2])
     profiles_only).1.

(** A JSON value is a number here; the field readers accept any of them. *)
Definition int_field (v : Z) : option Z := Some v.

Definition choice_field (v : Z) : option OrderStatus := None.

Definition order_body : gmap string Z := {[ "offer_detail_id" := 1 ]}.

Definition review (rating : Z) : ReviewData.t :=
  ReviewData.mk 1 rating "Great!".

End Sample.

(** * The rest of [sales_app/api] *)

(** The exception [permission_denied] raises for an authenticated caller. *)
Definition forbidden : Exception :=
  PermissionDenied "You do not have permission to perform this action.".

(** ** permissions.py: the remaining classes *)

Module IsReviewerSelf.
(** Inherited from [IsAuthenticated]. *)
Definition has_permission (request : Request) : bool :=
  is_authenticated (user request).

Definition has_object_permission (request : Request) (obj : Z * Review.t)
    : bool :=
  if is_safe (method request) then true
  else match getattr_userprofile (user request) with
       | Some (pk, _) => bool_decide (pk = Review.reviewer obj.2)
       | None => false
       end.
End IsReviewerSelf.

Module IsCustomerUser.
Definition has_permission (request : Request) : bool :=
  IsAuthenticated.has_permission request
  && match getattr_userprofile (user request) with
     | Some (_, p) => bool_decide (UserProfile.type p = "customer")
     | None => false
     end.
End IsCustomerUser.

Module IsStaffForDeleteOrOrderPartyForReadAndBusinessOwnerForWrite.
(** Inherited from [IsAuthenticated]. *)
Definition has_permission (request : Request) : bool :=
  is_authenticated (user request).

(** [obj.offer_detail.offer.user_profile_id]: two related rows are fetched;
    a missing one raises. *)
Definition offer_owner (obj : Order.t) : M Z :=
  λ st, match get_business_user st obj with
        | Some owner => (st, Return owner)
        | None => (st, Raise DoesNotExist)
        end.

(** The inner function [is_order_party]. *)
Definition is_order_party (staff : bool)
    (profile : option (Z * UserProfile.t)) (obj : Z * Order.t) : M bool :=
  if staff then mret true
  else match profile with
       | None => mret false
       | Some (pk, p) =>
           if decide (UserProfile.type p = "customer")
           then mret (bool_decide (Order.customer_user obj.2 = pk))
           else if decide (UserProfile.type p = "business")
           then owner ← offer_owner obj.2; mret (bool_decide (owner = pk))
           else mret false
       end.

Definition has_object_permission (request : Request) (obj : Z * Order.t)
    : M bool :=
  match user request with
  | AnonymousUser => mret false
  | Authenticated u =>
      let profile := userprofile u in
      let staff := is_staff u || is_superuser u in
      if is_safe (method request) then is_order_party staff profile obj
      else if decide (method request = DELETE) then mret staff
      else if decide (method request = PATCH ∨ method request = PUT)
      then
        if staff then mret true
        else match profile with
             | None => mret false
             | Some (pk, p) =>
                 if decide (UserProfile.type p ≠ "business") then mret false
                 else owner ← offer_owner obj.2;
                      mret (bool_decide (owner = pk))
             end
      else mret false
  end.
End IsStaffForDeleteOrOrderPartyForReadAndBusinessOwnerForWrite.

(** ** serializers.py: [OrderSerializer] on an update *)

(** Validated input of an order update: either field may be absent. *)
Module OrderUpdateData.
Record t := mk { status : option OrderStatus; offer_detail_id : option Z }.
End OrderUpdateData.

Section OrderUpdateInput.
Context {JSON : Type}.
Variable IntegerField_to_internal_value : JSON → option Z.
Variable ChoiceField_to_internal_value : JSON → option OrderStatus.

(** [offer_detail_id] is required unless the update is partial. *)
Definition read_offer_detail_id_on_update (partial : bool)
    (data : gmap string JSON) : string + option Z :=
  match data !! "offer_detail_id" with
  | None =>
      if partial then inr None
      else inl "offer_detail_id: This field is required."
  | Some v =>
      match IntegerField_to_internal_value v with
      | None => inl "offer_detail_id: A valid integer is required."
      | Some n => inr (Some n)
      end
  end.

(** [StrictModelSerializer.to_internal_value] as [OrderSerializer] runs it
    with an instance: the unexpected-field check, then the writable
    fields. *)
Definition OrderSerializer_to_internal_value_on_update (partial : bool)
    (data : gmap string JSON) : M OrderUpdateData.t :=
  if decide (unexpected_fields OrderSerializer_fields data ≠ ∅)
  then raise (ValidationError "Unexpected fields")
  else
    match read_status ChoiceField_to_internal_value data,
          read_offer_detail_id_on_update partial data with
    | inr s, inr n => mret (OrderUpdateData.mk s n)
    | inl e, inr _ => raise (ValidationError e)
    | inr _, inl e => raise (ValidationError e)
    | inl e1, inl e2 => raise (ValidationError (e1 +:+ "; " +:+ e2))
    end.
End OrderUpdateInput.

(** Modelled from the spec: [sales_app/models.py] is absent.  [instance.save()]
    on an order; section 3 has the order hold a reference to a detail under
    the store's referential integrity: a key without a row is refused. *)
Definition Order_save (obj : Z * Order.t) : M unit :=
  λ st,
    if bool_decide (is_Some (OfferDetail_objects st !! Order.offer_detail obj.2))
    then (with_Order_objects (insert obj.1 obj.2) st, Return tt)
    else (st, Raise IntegrityError).

(** [OrderSerializer] does not override [update]: the framework's
    [ModelSerializer.update] sets every validated attribute on the instance
    and saves it.  [offer_detail_id] is the column of the foreign key. *)
Definition OrderSerializer_update (instance : Z * Order.t)
    (validated_data : OrderUpdateData.t) : M (Z * Order.t) :=
  let row :=
    Order.mk (Order.customer_user instance.2)
             (default (Order.offer_detail instance.2)
                      (OrderUpdateData.offer_detail_id validated_data))
             (default (Order.status instance.2)
                      (OrderUpdateData.status validated_data)) in
  Order_save (instance.1, row);;
  mret (instance.1, row).

(** Modelled from the spec: [sales_app/models.py] is absent.
    [instance.delete()] on an order and on a review; in section 3 no entity
    refers to an order or to a review, so only the row itself goes. *)
Definition Order_delete (pk : Z) : M unit :=
  λ st, (with_Order_objects (delete pk) st, Return tt).

Definition Review_delete (pk : Z) : M unit :=
  λ st, (with_Review_objects (delete pk) st, Return tt).

(** ** views.py: the remaining views *)

Module OrderDetailView.
Definition has_permission :=
  IsStaffForDeleteOrOrderPartyForReadAndBusinessOwnerForWrite.has_permission.
Definition has_object_permission :=
  IsStaffForDeleteOrOrderPartyForReadAndBusinessOwnerForWrite.has_object_permission.

(** [get_object] with a permission that reads the store. *)
Definition get_object (request : Request) (pk : Z) : M (Z * Order.t) :=
  found ← gets (λ st, Order_objects st !! pk);
  match found with
  | None => raise (NotFound "Not found.")
  | Some row =>
      allowed ← has_object_permission request (pk, row);
      if (allowed : bool) then mret (pk, row) else permission_denied request
  end.

Definition retrieve (request : Request) (pk : Z) : M OrderRepr.t :=
  check_permissions has_permission request;;
  instance ← get_object request pk;
  OrderListCreateView.serialize instance.

Definition destroy (request : Request) (pk : Z) : M unit :=
  check_permissions has_permission request;;
  instance ← get_object request pk;
  Order_delete instance.1.

Section Update.
Context {JSON : Type}.
Variable IntegerField_to_internal_value : JSON → option Z.
Variable ChoiceField_to_internal_value : JSON → option OrderStatus.

(** [update]; [partial] is set for PATCH. *)
Definition update (partial : bool) (request : Request) (pk : Z)
    (data : gmap string JSON) : M OrderRepr.t :=
  check_permissions has_permission request;;
  instance ← get_object request pk;
  validated_data ← OrderSerializer_to_internal_value_on_update
                     IntegerField_to_internal_value
                     ChoiceField_to_internal_value partial data;
  order ← OrderSerializer_update instance validated_data;
  OrderListCreateView.serialize order.
End Update.
End OrderDetailView.

(** The two count views differ in the status they count and in the key of
    the answer. *)
Definition count_orders (status : OrderStatus) (business_user_id : Z)
    (st : Store) : Z :=
  Z.of_nat (size (filter
    (λ kv : Z * Order.t,
       get_business_user st kv.2 = Some business_user_id
       ∧ Order.status kv.2 = status)
    (Order_objects st))).

Definition order_count_view (status : OrderStatus) (request : Request)
    (business_user_id : Z) : M Z :=
  check_permissions IsAuthenticated.has_permission request;;
  found ← gets (λ st, UserProfile_objects st !! business_user_id);
  match found with
  | Some p =>
      if decide (UserProfile.type p = "business")
      then gets (count_orders status business_user_id)
      else raise (NotFound "This id does not exist")
  | None => raise (NotFound "This id does not exist")
  end.

Module OrderCountForBusinessView.
Definition get : Request → Z → M Z := order_count_view IN_PROGRESS.
End OrderCountForBusinessView.

Module CompletedOrderCountForBusinessView.
Definition get : Request → Z → M Z := order_count_view COMPLETED.
End CompletedOrderCountForBusinessView.

Module OfferDetailDetailView.
Definition get (request : Request) (pk : Z) : M OfferDetailFull.t :=
  check_permissions IsAuthenticated.has_permission request;;
  instance ← get_object OfferDetail_objects (λ _ _, true) request pk;
  mret (OfferDetailSerializer_to_representation instance).
End OfferDetailDetailView.

Module ReviewDetailView.
(** [get_permissions]: [AllowAny] for reading, [IsReviewerSelf] otherwise. *)
Definition has_permission (request : Request) : bool :=
  if is_safe (method request) then true
  else IsReviewerSelf.has_permission request.

Definition has_object_permission (request : Request) (obj : Z * Review.t)
    : bool :=
  if is_safe (method request) then true
  else IsReviewerSelf.has_object_permission request obj.

Definition retrieve (request : Request) (pk : Z) : M (Z * Review.t) :=
  check_permissions has_permission request;;
  get_object Review_objects has_object_permission request pk.

Definition destroy (request : Request) (pk : Z) : M unit :=
  check_permissions has_permission request;;
  instance ← get_object Review_objects has_object_permission request pk;
  Review_delete instance.1.
End ReviewDetailView.

(** [OfferListCreateView.get_queryset]: every offer, annotated with the
    minima over its details (null when it has none). *)
Module AnnotatedOffer.
Record t := mk {
  pk : Z;
  row : Offer.t;
  min_price : option Z;
  min_delivery_time : option Z }.
End AnnotatedOffer.

Definition OfferListCreateView_get_queryset (st : Store)
    : list AnnotatedOffer.t :=
  (λ kv, AnnotatedOffer.mk kv.1 kv.2 (get_min_price st kv)
                           (get_min_delivery_time st kv))
  <$> map_to_list (Offer_objects st).

(** ** filters.py *)

Module OfferFilter.
(** The query parameters after the number fields have read them, as whole
    numbers like the prices and days of the store; a parameter that is absent
    or empty is [None]. *)
Record params := mk_params {
  creator_id : option Z;
  max_delivery_time : option Z;
  min_price : option Z }.

(** [qs.filter(user_profile_id=value)] *)
Definition filter_creator_id (qs : list AnnotatedOffer.t) (value : Z)
    : list AnnotatedOffer.t :=
  filter (λ o, Offer.user_profile (AnnotatedOffer.row o) = value) qs.

(** The lookups [__lte] and [__gte] on a nullable annotation: null matches
    no comparison. *)
Definition lte (annotation : option Z) (value : Z) : Prop :=
  match annotation with
  | Some x => x ≤ value
  | None => False
  end.

Definition gte (annotation : option Z) (value : Z) : Prop :=
  match annotation with
  | Some x => value ≤ x
  | None => False
  end.

#[global] Instance lte_dec annotation value : Decision (lte annotation value).
Proof. destruct annotation; simpl; apply _. Defined.

#[global] Instance gte_dec annotation value : Decision (gte annotation value).
Proof. destruct annotation; simpl; apply _. Defined.

(** [qs.filter(min_delivery_time__lte=value)] *)
Definition filter_max_delivery_time (qs : list AnnotatedOffer.t) (value : Z)
    : list AnnotatedOffer.t :=
  filter (λ o, lte (AnnotatedOffer.min_delivery_time o) value) qs.

(** [qs.filter(min_price__gte=value)] *)
Definition filter_min_price (qs : list AnnotatedOffer.t) (value : Z)
    : list AnnotatedOffer.t :=
  filter (λ o, gte (AnnotatedOffer.min_price o) value) qs.

(** A filter without a value leaves the queryset as it is. *)
Definition apply (f : list AnnotatedOffer.t → Z → list AnnotatedOffer.t)
    (value : option Z) (qs : list AnnotatedOffer.t) : list AnnotatedOffer.t :=
  match value with
  | Some v => f qs v
  | None => qs
  end.

(** The filters run in the order the class declares them. *)
Definition filter_queryset (p : params) (qs : list AnnotatedOffer.t)
    : list AnnotatedOffer.t :=
  apply filter_min_price (min_price p)
    (apply filter_max_delivery_time (max_delivery_time p)
       (apply filter_creator_id (creator_id p) qs)).
End OfferFilter.

(** ** The sample marketplace, with an order and a review *)

Module Scenario.

(** The customer orders the basic package. *)
Definition with_order : Store :=
  (OrderListCreateView.post Sample.int_field Sample.choice_field
     (mkRequest POST (Authenticated Sample.user_customer))
     Sample.order_body Sample.store).1.

(** The customer then reviews the business. *)
Definition store : Store :=
  (ReviewListCreateView.post
     (mkRequest POST (Authenticated Sample.user_customer))
     (Sample.review 5) with_order).1.

Definition order : Order.t := Order.mk 2 1 IN_PROGRESS.

(** Twenty reviews of the business, seven with five stars and thirteen with
    four: the mean is 87/20 = 4.35. *)
Definition twenty_reviews : Store :=
  with_Review_objects
    (λ _, list_to_map
            (imap (λ i rating,
                     (Z.of_nat i + 1, Review.mk 1 (Z.of_nat i + 100) rating "ok"))
                  (replicate 7 5 ++ replicate 13 4)))
    Sample.store.

Definition user_staff : User := mkUser true false None.

Definition user_no_profile : User := mkUser false false None.

(** The statuses as the numbers 1, 2 and 3. *)
Definition status_field (v : Z) : option OrderStatus :=
  match v with
  | 1 => Some IN_PROGRESS
  | 2 => Some COMPLETED
  | 3 => Some CANCELLED
  | _ => None
  end.

End Scenario.

(** * Properties *)

(** ** Running the monad, primary keys, constraints *)

Ltac run :=
  repeat (unfold mbind, M_bind, bind, mret, M_ret, ret, raise, gets,
            try_except, check_permissions, check_object_permissions,
            permission_denied in *; simpl in * ).

Lemma mbind_return {A B} (c : M A) (k : A → M B) st st' a :
  c st = (st', Return a) → (c ≫= k) st = k a st'.
Proof. intros H. unfold mbind, M_bind, bind. by rewrite H. Qed.

Lemma mbind_raise {A B} (c : M A) (k : A → M B) st st' e :
  c st = (st', Raise e) → (c ≫= k) st = (st', Raise e).
Proof. intros H. unfold mbind, M_bind, bind. by rewrite H. Qed.

Ltac bind_return :=
  cbv beta iota;
  match goal with
  | |- context [@mbind M M_bind _ _ ?k ?c ?st] =>
      erewrite (mbind_return c k st)
  end.

Ltac bind_raise :=
  cbv beta iota;
  match goal with
  | |- context [@mbind M M_bind _ _ ?k ?c ?st] =>
      erewrite (mbind_raise c k st)
  end.

Lemma next_id_bound {A} (m : gmap Z A) k :
  is_Some (m !! k) → k < next_id m.
Proof.
  unfold next_id.
  revert k.
  apply (map_fold_weak_ind
           (λ r (m : gmap Z A), ∀ k, is_Some (m !! k) → k < 1 + r)).
  - intros k [x Hx]. rewrite lookup_empty in Hx. discriminate.
  - intros i x m' r Hi IH k Hk.
    destruct (decide (i = k)) as [->|Hne].
    + lia.
    + rewrite lookup_insert_ne in Hk by done.
      specialize (IH k Hk). lia.
Qed.

Lemma next_id_fresh {A} (m : gmap Z A) : m !! next_id m = None.
Proof.
  destruct (m !! next_id m) eqn:E; [|done].
  assert (next_id m < next_id m) by (apply next_id_bound; eauto).
  lia.
Qed.

Lemma tier_taken_true offer ty m :
  tier_taken offer ty m = true ↔
  ∃ k r, m !! k = Some r ∧ OfferDetail.offer r = offer
         ∧ OfferDetail.offer_type r = ty.
Proof.
  unfold tier_taken. rewrite bool_decide_eq_true.
  unfold map_Exists. naive_solver.
Qed.

Lemma tier_taken_false offer ty m :
  tier_taken offer ty m = false ↔
  ∀ k r, m !! k = Some r → OfferDetail.offer r = offer →
         OfferDetail.offer_type r ≠ ty.
Proof.
  rewrite <- not_true_iff_false, tier_taken_true. split.
  - intros H k r Hk Ho Ht. apply H. eauto.
  - intros H (k & r & Hk & Ho & Ht). by eapply H.
Qed.

Lemma Review_exists_true b r st :
  Review_exists b r st = true ↔
  ∃ k x, Review_objects st !! k = Some x ∧ Review.business_user x = b
         ∧ Review.reviewer x = r.
Proof.
  unfold Review_exists. rewrite bool_decide_eq_true.
  unfold map_Exists. naive_solver.
Qed.

(** ** Retrieving an offer *)

(** C2: a GET on the single-offer endpoint without a valid token is refused
    by the view's permission class before the offer is looked up: the answer
    is [NotAuthenticated] (401) for every id, existing or not, and the store
    is untouched. *)
Theorem C2_anonymous_offer_retrieve_is_rejected (pk : Z) (st : Store) :
  OfferDetailView.get (mkRequest GET AnonymousUser) pk st
  = (st, Raise NotAuthenticated)
  ∧ status_code NotAuthenticated = 401.
Proof. split; reflexivity. Qed.

Lemma offer_retrieve_authenticated_light (u : User) (pk : Z) (row : Offer.t)
    (st : Store) :
  Offer_objects st !! pk = Some row →
  ∃ r, OfferDetailView.get (mkRequest GET (Authenticated u)) pk st
       = (st, Return r)
     ∧ OfferRepr.id r = pk
     ∧ OfferRepr.details r
       = (λ d, OfferDetailLight.mk d.1 (mkHyperlink "offer-detail-detail" d.1))
           <$> details_of pk st.
Proof.
  intros H. eexists. unfold OfferDetailView.get, get_object. run.
  rewrite H. simpl. split; [reflexivity|]. split; reflexivity.
Qed.


(** ** Orders *)

(** C4: an order row holds only the key of its [OfferDetail].  After the
    detail is saved with new attributes, every getter of the order serializer
    and the order's representation return the new price, tier, delivery
    time, revisions, title and features; the order row itself is unchanged. *)
Theorem C4_order_fields_follow_detail (st : Store) (pk : Z) (obj : Order.t)
    (detail' : OfferDetail.t) :
  let st' := (OfferDetail_save (Order.offer_detail obj, detail') st).1 in
  Order_objects st' = Order_objects st
  ∧ get_price st' obj = Some (OfferDetail.price detail')
  ∧ get_offer_type st' obj = Some (OfferDetail.offer_type detail')
  ∧ get_delivery_time_in_days st' obj
    = Some (OfferDetail.delivery_time_in_days detail')
  ∧ get_revisions st' obj = Some (OfferDetail.revisions detail')
  ∧ get_title st' obj = Some (OfferDetail.title detail')
  ∧ get_features st' obj = Some (OfferDetail.features detail')
  ∧ match OrderSerializer_to_representation st' (pk, obj) with
    | Some r =>
        OrderRepr.price r = OfferDetail.price detail'
        ∧ OrderRepr.offer_type r = OfferDetail.offer_type detail'
        ∧ OrderRepr.delivery_time_in_days r
          = OfferDetail.delivery_time_in_days detail'
        ∧ OrderRepr.revisions r = OfferDetail.revisions detail'
        ∧ OrderRepr.title r = OfferDetail.title detail'
        ∧ OrderRepr.features r = OfferDetail.features detail'
    | None => Offer_objects st !! OfferDetail.offer detail' = None
    end.
Proof.
  simpl.
  unfold OrderSerializer_to_representation, get_business_user,
    get_price, get_offer_type, get_delivery_time_in_days, get_revisions,
    get_title, get_features, related_offer_detail. simpl.
  rewrite lookup_insert_eq. simpl.
  repeat (split; [reflexivity|]).
  destruct (Offer_objects st !! OfferDetail.offer detail'); simpl; done.
Qed.

Section OrderCreate.
Context {JSON : Type}.
Variable int_field : JSON → option Z.
Variable choice_field : JSON → option OrderStatus.

(** The two fields [to_internal_value] reads are the writable ones. *)
Lemma writable_fields_are :
  OrderSerializer_writable_fields = ["status"; "offer_detail_id"].
Proof. vm_compute. reflexivity. Qed.

Lemma to_internal_value_pure data st :
  (OrderSerializer_to_internal_value int_field choice_field data st).1 = st.
Proof.
  unfold OrderSerializer_to_internal_value.
  destruct (decide _); [reflexivity|].
  destruct (read_status _ _), (read_offer_detail_id _ _); reflexivity.
Qed.


Lemma customer_user_is_declared :
  "customer_user" ∈ (list_to_set OrderSerializer_fields : gset string).
Proof.
  rewrite elem_of_list_to_set. unfold OrderSerializer_fields.
  repeat (first [apply list_elem_of_here | apply list_elem_of_further]).
Qed.

Lemma unexpected_fields_customer_user (data : gmap string JSON) :
  unexpected_fields OrderSerializer_fields data
  = unexpected_fields OrderSerializer_fields (delete "customer_user" data).
Proof.
  unfold unexpected_fields. rewrite dom_delete_L.
  pose proof customer_user_is_declared as Hin.
  apply set_eq. intros x.
  rewrite !elem_of_difference, elem_of_singleton.
  split; [|tauto]. intros [Hx Hnot]. repeat split; try done.
  intros ->. done.
Qed.

Lemma to_internal_value_ignores_customer_user (data : gmap string JSON) :
  OrderSerializer_to_internal_value int_field choice_field data
  = OrderSerializer_to_internal_value int_field choice_field
      (delete "customer_user" data).
Proof.
  unfold OrderSerializer_to_internal_value.
  rewrite <- unexpected_fields_customer_user.
  unfold read_status, read_offer_detail_id.
  rewrite !lookup_delete_ne by done.
  reflexivity.
Qed.

(** C10: two order-create requests of the same requester on the same store
    whose bodies differ at most in [customer_user] have the same outcome and
    leave the same store; the customer of a created order is the profile of
    the requester. *)
Theorem C10_customer_user_is_read_only (request : Request)
    (data1 data2 : gmap string JSON) (st : Store) :
  delete "customer_user" data1 = delete "customer_user" data2 →
  OrderListCreateView.post int_field choice_field request data1 st
  = OrderListCreateView.post int_field choice_field request data2 st
  ∧ match OrderListCreateView.post int_field choice_field request data1 st with
    | (st', Return r) =>
        ∃ p, getattr_userprofile (user request)
             = Some (OrderRepr.customer_user r, p)
             ∧ (Order.customer_user <$> Order_objects st' !! OrderRepr.id r)
               = Some (OrderRepr.customer_user r)
    | _ => True
    end.
Proof.
  intros Hsame. split.
  - unfold OrderListCreateView.post.
    rewrite (to_internal_value_ignores_customer_user data1),
            (to_internal_value_ignores_customer_user data2), Hsame.
    reflexivity.
  - unfold OrderListCreateView.post. run.
    destruct (IsAuthenticated.has_permission request); simpl; [|
      destruct (is_authenticated _); done].
    pose proof (to_internal_value_pure data1 st) as Hp.
    destruct (OrderSerializer_to_internal_value _ _ _ _) as [st1 [vd|e]];
      [|done].
    simpl in Hp. subst st1.
    unfold OrderSerializer_create.
    destruct (getattr_userprofile (user request)) as [[c p]|] eqn:Hu; [|done].
    run. unfold OfferDetail_objects_get.
    destruct (OfferDetail_objects st !! _) as [row|] eqn:E; simpl; [|done].
    unfold OrderListCreateView.serialize. run.
    destruct (OrderSerializer_to_representation _ _) as [r|] eqn:Hr; [|done].
    simpl.
    unfold OrderSerializer_to_representation in Hr.
    simpl in Hr.
    repeat (match type of Hr with
            | context [?x ≫= _] => destruct x; simpl in Hr; [|discriminate]
            end).
    injection Hr as <-. simpl. exists p. split; [done|].
    rewrite lookup_insert_eq. done.
Qed.

End OrderCreate.


Lemma business_order_representable (st : Store) (o : Z * Order.t) (b : Z) :
  get_business_user st o.2 = Some b →
  is_Some (OrderSerializer_to_representation st o).
Proof.
  unfold OrderSerializer_to_representation, get_title, get_revisions, get_price,
    get_delivery_time_in_days, get_features, get_offer_type.
  intros H. rewrite H. unfold get_business_user in H.
  destruct (related_offer_detail st o.2); [|discriminate]. simpl. eauto.
Qed.


(** ** Reviews *)

Lemma review_create_dup (u : User) (reviewer : Z) (p : UserProfile.t)
    (data : ReviewData.t) (st : Store) :
  userprofile u = Some (reviewer, p) →
  Review_exists (ReviewData.business_user data) reviewer st = true →
  ReviewSerializer_create (mkRequest POST (Authenticated u)) data st
  = (st, Raise already_reviewed).
Proof.
  intros Hu Hex. unfold ReviewSerializer_create. simpl. rewrite Hu. run.
  rewrite Hex. reflexivity.
Qed.

Lemma review_create_new (u : User) (reviewer : Z) (p : UserProfile.t)
    (data : ReviewData.t) (st : Store) :
  userprofile u = Some (reviewer, p) →
  Review_exists (ReviewData.business_user data) reviewer st = false →
  ReviewSerializer_create (mkRequest POST (Authenticated u)) data st
  = Review_objects_create reviewer data st.
Proof.
  intros Hu Hex. unfold ReviewSerializer_create. simpl. rewrite Hu. run.
  rewrite Hex. reflexivity.
Qed.

(** C7: on a store with at most one review per (business, reviewer) pair,
    a review-create keeps that invariant; after it, any further create of the
    same reviewer for the same business fails with the validation error and
    leaves the store as it was; and a create that finds a review of the pair
    already in the store fails the same way without writing. *)
Theorem C7_one_review_per_pair (u : User) (reviewer : Z) (p : UserProfile.t)
    (data data2 : ReviewData.t) (st : Store) :
  userprofile u = Some (reviewer, p) →
  one_review_per_pair st →
  ReviewData.business_user data2 = ReviewData.business_user data →
  let request := mkRequest POST (Authenticated u) in
  let st1 := (ReviewSerializer_create request data st).1 in
  one_review_per_pair st1
  ∧ ReviewSerializer_create request data2 st1 = (st1, Raise already_reviewed)
  ∧ status_code already_reviewed = 400
  ∧ ((∃ k x, Review_objects st !! k = Some x
             ∧ Review.business_user x = ReviewData.business_user data
             ∧ Review.reviewer x = reviewer) →
     ReviewSerializer_create request data st = (st, Raise already_reviewed)).
Proof.
  intros Hu Hinv Hb request st1.
  assert (Hdup : (∃ k x, Review_objects st !! k = Some x
             ∧ Review.business_user x = ReviewData.business_user data
             ∧ Review.reviewer x = reviewer) →
     ReviewSerializer_create request data st = (st, Raise already_reviewed)).
  { intros H. eapply review_create_dup; [done|]. by apply Review_exists_true. }
  destruct (Review_exists (ReviewData.business_user data) reviewer st) eqn:Hex.
  - assert (st1 = st) as ->.
    { unfold st1, request. by erewrite review_create_dup. }
    split; [done|]. split; [|done].
    eapply review_create_dup; [done|]. by rewrite Hb.
  - assert (Hst1 : Review_objects st1
              = <[next_id (Review_objects st) :=
                    Review.mk (ReviewData.business_user data) reviewer
                      (ReviewData.rating data) (ReviewData.description data)]>
                  (Review_objects st)).
    { unfold st1, request. by erewrite review_create_new. }
    split; [|split; [|done]].
    + intros i j x y Hi Hj Hbu Hrv. rewrite Hst1 in Hi, Hj.
      assert (Hnone : ∀ k z, Review_objects st !! k = Some z →
                Review.business_user z = ReviewData.business_user data →
                Review.reviewer z ≠ reviewer).
      { intros k z Hk Hz Hr.
        assert (Review_exists (ReviewData.business_user data) reviewer st = true)
          by (apply Review_exists_true; eauto).
        congruence. }
      destruct (decide (i = next_id (Review_objects st))) as [->|Hi'];
        destruct (decide (j = next_id (Review_objects st))) as [->|Hj'];
        [done| | |].
      * rewrite lookup_insert_eq in Hi. rewrite lookup_insert_ne in Hj by done.
        injection Hi as <-. simpl in *.
        exfalso. eapply Hnone; eauto.
      * rewrite lookup_insert_eq in Hj. rewrite lookup_insert_ne in Hi by done.
        injection Hj as <-. simpl in *.
        exfalso. eapply Hnone; eauto.
      * rewrite lookup_insert_ne in Hi, Hj by done. eauto.
    + eapply review_create_dup; [done|]. apply Review_exists_true.
      eexists _, _. rewrite Hst1, lookup_insert_eq. split; [done|].
      simpl. done.
Qed.

(** ** Statistics *)

(** The mean 87/20 is no float: the float next to it lies below 4.35, and
    rounding to one decimal gives 4.3 where the exact mean would be a tie. *)
Lemma average_of_twenty_reviews :
  Avg (BaseInfoView.ratings Scenario.twenty_reviews) = Some (binary64 (87 # 20))
  ∧ (binary64 (87 # 20) < 87 # 20)%Q
  ∧ BaseInfo.average_rating (BaseInfoView.get Scenario.twenty_reviews)
    = binary64 (43 # 10).
Proof.
  split; [vm_compute; reflexivity|]. split; [|vm_compute; reflexivity].
  vm_compute. reflexivity.
Qed.

Lemma round_half_even_spec (n : Z) (d : positive) :
  2 * Z.abs (round_half_even n d * Z.pos d - n) <= Z.pos d.
Proof.
  unfold round_half_even.
  pose proof (Z.div_mod n (Z.pos d) ltac:(lia)) as Hdm.
  pose proof (Z.mod_pos_bound n (Z.pos d) ltac:(lia)) as Hb.
  set (q := n / Z.pos d) in *. set (r := n mod Z.pos d) in *.
  assert (Hq : q * Z.pos d - n = - r) by nia.
  assert (Hq1 : (q + 1) * Z.pos d - n = Z.pos d - r) by nia.
  clearbody q r.
  destruct (Z.compare_spec (2 * r) (Z.pos d)) as [C|C|C].
  - destruct (Z.even q); rewrite ?Hq, ?Hq1; lia.
  - rewrite Hq. lia.
  - rewrite Hq1. lia.
Qed.



Lemma pow2_pos (e : Z) : 0 < 2 ^ Z.max 0 e.
Proof. apply Z.pow_pos_nonneg; lia. Qed.

Lemma pow2_split (e k : Z) :
  0 <= k →
  2 ^ Z.max 0 (e + k) * 2 ^ Z.max 0 (- e)
  = 2 ^ k * 2 ^ Z.max 0 e * 2 ^ Z.max 0 (- (e + k)).
Proof.
  intros Hk.
  destruct (Z_le_gt_dec 0 e), (Z_le_gt_dec 0 (e + k)); try lia.
  - rewrite (Z.max_r 0 (e + k)), (Z.max_l 0 (- e)), (Z.max_r 0 e),
      (Z.max_l 0 (- (e + k))) by lia.
    rewrite Z.pow_add_r, Z.pow_0_r by lia. ring.
  - rewrite (Z.max_r 0 (e + k)), (Z.max_r 0 (- e)), (Z.max_l 0 e),
      (Z.max_l 0 (- (e + k))) by lia.
    rewrite !Z.pow_0_r, !Z.mul_1_r, <- Z.pow_add_r by lia.
    f_equal. lia.
  - rewrite (Z.max_l 0 (e + k)), (Z.max_r 0 (- e)), (Z.max_l 0 e),
      (Z.max_r 0 (- (e + k))) by lia.
    rewrite !Z.pow_0_r, Z.mul_1_l, Z.mul_1_r, <- Z.pow_add_r by lia.
    f_equal. lia.
Qed.

Lemma exponent_spec (n : Z) (d : positive) :
  0 < n →
  Z.pos d * 2 ^ Z.max 0 (exponent n d) <= n * 2 ^ Z.max 0 (- exponent n d).
Proof.
  intros Hn. unfold exponent.
  set (l := Z.log2 n - Z.log2 (Z.pos d)).
  destruct (Z.ltb_spec (n * 2 ^ Z.max 0 (- l)) (Z.pos d * 2 ^ Z.max 0 l))
    as [Hlt|Hge]; [|done].
  pose proof (Z.log2_spec n Hn) as [Hn1 _].
  pose proof (Z.log2_spec (Z.pos d) ltac:(lia)) as [_ Hd2].
  pose proof (Z.log2_nonneg n) as Hln.
  pose proof (Z.log2_nonneg (Z.pos d)) as Hld.
  set (ln := Z.log2 n) in *. set (ld := Z.log2 (Z.pos d)) in *.
  clearbody ln ld. subst l. clear Hlt.
  destruct (Z_le_gt_dec 0 (ln - ld - 1)).
  - rewrite (Z.max_r 0 (ln - ld - 1)), (Z.max_l 0 (- (ln - ld - 1))) by lia.
    simpl. rewrite Z.mul_1_r.
    assert (2 ^ Z.succ ld * 2 ^ (ln - ld - 1) = 2 ^ ln) as Heq.
    { rewrite <- Z.pow_add_r by lia. f_equal. lia. }
    assert (0 < 2 ^ (ln - ld - 1)) by (apply Z.pow_pos_nonneg; lia).
    nia.
  - rewrite (Z.max_l 0 (ln - ld - 1)), (Z.max_r 0 (- (ln - ld - 1))) by lia.
    simpl. rewrite Z.mul_1_r.
    assert (2 ^ ln * 2 ^ (- (ln - ld - 1)) = 2 ^ Z.succ ld) as Heq.
    { rewrite <- Z.pow_add_r by lia. f_equal. lia. }
    assert (0 < 2 ^ (- (ln - ld - 1))) by (apply Z.pow_pos_nonneg; lia).
    nia.
Qed.

(** The significand has 53 bits: the scaled fraction is at least [2^52]. *)
Lemma significand_bound (n : Z) (d : positive) :
  0 < n →
  let e := exponent n d - 52 in
  2 ^ 52 * (Z.pos d * 2 ^ Z.max 0 e) <= n * 2 ^ Z.max 0 (- e).
Proof.
  intros Hn e.
  pose proof (exponent_spec n d Hn) as H.
  pose proof (pow2_split e 52 ltac:(lia)) as Hs.
  replace (e + 52) with (exponent n d) in Hs by (subst e; lia).
  pose proof (pow2_pos (- exponent n d)) as H1.
  pose proof (pow2_pos (- e)) as H2.
  pose proof (pow2_pos e) as H3.
  pose proof (pow2_pos (exponent n d)) as H4.
  set (Pl := 2 ^ Z.max 0 (exponent n d)) in *.
  set (Nl := 2 ^ Z.max 0 (- exponent n d)) in *.
  set (Pe := 2 ^ Z.max 0 e) in *. set (Ne := 2 ^ Z.max 0 (- e)) in *.
  clearbody Pl Nl Pe Ne.
  assert (Z.pos d * Pl * Ne <= n * Nl * Ne) by nia.
  assert (Z.pos d * Pl * Ne = 2 ^ 52 * (Z.pos d * Pe) * Nl) by nia.
  apply (Z.mul_le_mono_pos_r _ _ Nl); [lia|]. nia.
Qed.

Lemma binary64_pos_error (n : Z) (d : positive) :
  0 < n →
  (Qabs (binary64_pos n d - (n # d)) <= (n # d) * (1 # 2 ^ 53))%Q.
Proof.
  intros Hn. unfold binary64_pos.
  pose proof (significand_bound n d Hn) as Hs. cbv zeta in Hs.
  set (e := exponent n d - 52) in *.
  pose proof (pow2_pos (- e)) as H2.
  pose proof (pow2_pos e) as H3.
  pose proof (round_half_even_spec (n * 2 ^ Z.max 0 (- e))
                (Z.to_pos (Z.pos d * 2 ^ Z.max 0 e))) as Hr.
  rewrite Z2Pos.id in Hr by lia.
  set (m := round_half_even _ _) in *. clearbody m.
  unfold Qabs, Qminus, Qplus, Qopp, Qmult, Qle.
  cbn [Qnum Qden]. rewrite !Pos2Z.inj_mul, Z2Pos.id by lia.
  set (Pe := 2 ^ Z.max 0 e) in *. set (Ne := 2 ^ Z.max 0 (- e)) in *.
  clearbody Pe Ne.
  change (Z.pos (2 ^ 53)) with (2 * 2 ^ 52) in *.
  set (K := 2 ^ 52) in *. assert (0 < K) by (subst K; lia). clearbody K.
  replace (m * Pe * Z.pos d + - n * Ne) with (m * (Z.pos d * Pe) - n * Ne)
    by ring.
  set (D := Z.abs _) in *. assert (0 <= D) by (subst D; lia). clearbody D.
  nia.
Qed.

Lemma binary64_error (q : Q) :
  (Qabs (binary64 q - q) <= Qabs q * (1 # 2 ^ 53))%Q.
Proof.
  destruct q as [[|n|n] d]; unfold binary64; cbn [Qnum Qden].
  - unfold Qle. simpl. lia.
  - change (Qabs (Z.pos n # d)) with (Z.pos n # d).
    apply binary64_pos_error. lia.
  - change (Qabs (Z.neg n # d)) with (Z.pos n # d).
    change (- Z.neg n) with (Z.pos n).
    pose proof (binary64_pos_error (Z.pos n) d ltac:(lia)) as H.
    rewrite <- Qabs_opp in H.
    erewrite Qabs_wd; [exact H|].
    change (Z.neg n # d) with (Qopp (Z.pos n # d)). ring.
Qed.

(** [round(x, 1)] is the float written as a number of tenths, and that
    number is nearest to [x]. *)
Lemma round_1_close (x : Q) :
  ∃ k : Z, round_1 x = binary64 (k # 10)
           ∧ (Qabs ((k # 10) - x) <= 1 # 20)%Q.
Proof.
  exists (round_half_even (10 * Qnum x) (Qden x)). split; [done|].
  destruct x as [n d]. simpl.
  pose proof (round_half_even_spec (10 * n) d) as H.
  unfold Qle, Qabs, Qminus, Qplus, Qopp; simpl.
  generalize dependent (round_half_even (10 * n) d). intros k H.
  rewrite Pos2Z.inj_mul. lia.
Qed.







Lemma sum_of_ratings (st : Store) :
  sum_Z (BaseInfoView.ratings st)
  = map_fold (λ _ x acc, Review.rating x + acc) 0 (Review_objects st).
Proof.
  rewrite map_fold_foldr. unfold BaseInfoView.ratings.
  induction (map_to_list (Review_objects st)) as [|[k x] l IH]; [done|].
  rewrite fmap_cons. unfold sum_Z in *. cbn [foldr uncurry fst snd].
  by rewrite IH.
Qed.

(** C8: with no review the statistics endpoint answers an average rating
    of exactly zero.  Otherwise the average rating is the float written as a
    number of tenths [k/10], and [k/10] is within one twentieth of the mean
    of the ratings of all reviews, up to the rounding of that mean to a
    float (a relative [2^-53]).  The counts are the sizes of the review
    table, of the business-typed profiles and of the offer table. *)
Theorem C8_base_info (st : Store) :
  let r := BaseInfoView.get st in
  let n := size (Review_objects st) in
  let total :=
    map_fold (λ _ x acc, Review.rating x + acc) 0 (Review_objects st) in
  let mean := Qmake total (Pos.of_nat n) in
  (if decide (Review_objects st = ∅)
   then BaseInfo.average_rating r = 0%Q
   else ∃ k : Z,
          BaseInfo.average_rating r = binary64 (k # 10)
          ∧ (Qabs ((k # 10) - mean)
             <= (1 # 20) + Qabs mean * (1 # 2 ^ 53))%Q)
  ∧ BaseInfo.review_count r = Z.of_nat n
  ∧ BaseInfo.business_profile_count r
    = Z.of_nat (size (filter (λ kv, UserProfile.type kv.2 = "business")
                             (UserProfile_objects st)))
  ∧ BaseInfo.offer_count r = Z.of_nat (size (Offer_objects st)).
Proof.
  intros r n total mean. split; [|done].
  destruct (decide (Review_objects st = ∅)) as [He|Hne].
  - subst r. unfold BaseInfoView.get, BaseInfoView.ratings.
    rewrite He, map_to_list_empty. reflexivity.
  - subst r. unfold BaseInfoView.get. cbn [BaseInfo.average_rating].
    pose proof (sum_of_ratings st) as Hsum. fold total in Hsum.
    assert (Hlen : length (BaseInfoView.ratings st) = n)
      by (unfold BaseInfoView.ratings; by rewrite length_fmap, length_map_to_list).
    set (rs := BaseInfoView.ratings st) in *.
    assert (Hrs : rs ≠ []).
    { intros Hrs. apply Hne. apply map_to_list_empty_iff.
      by apply fmap_nil_inv in Hrs. }
    assert (HA : Avg rs = Some (binary64 mean)).
    { unfold mean. rewrite <- Hsum, <- Hlen. destruct rs; [done|reflexivity]. }
    rewrite HA. unfold truthy. cbn [default].
    pose proof (binary64_error mean) as Herr.
    set (a := binary64 mean) in *. clearbody a.
    destruct (Qeq_bool a 0) eqn:Hz; cbn [negb].
    + apply Qeq_bool_iff in Hz. exists 0. split; [reflexivity|].
      assert (Heq : ((0 # 10) - mean == a - mean)%Q) by (rewrite Hz; ring).
      rewrite (Qabs_wd _ _ Heq).
      eapply Qle_trans; [exact Herr|].
      rewrite <- (Qplus_0_l (Qabs mean * (1 # 2 ^ 53))) at 1.
      apply Qplus_le_compat; [done|apply Qle_refl].
    + destruct (round_1_close a) as (k & Hk & Hclose).
      exists k. split; [exact Hk|].
      assert (Heq : ((k # 10) - mean == ((k # 10) - a) + (a - mean))%Q)
        by ring.
      rewrite (Qabs_wd _ _ Heq).
      eapply Qle_trans; [apply Qabs_triangle|].
      by apply Qplus_le_compat.
Qed.

(** ** Creating an offer with nested details *)

Lemma extends_with_nil m : extends_with m m [].
Proof.
  split; [done|]. split; [simpl; lia|]. split.
  - intros row H. by apply elem_of_nil in H.
  - intros k row H. by left.
Qed.

Lemma extends_with_cons m m' row rows :
  extends_with (<[next_id m := row]> m) m' rows →
  extends_with m m' (row :: rows).
Proof.
  intros (Hsub & Hsize & Hnew & Hold).
  pose proof (next_id_fresh m) as Hfresh.
  split; [|split; [|split]].
  - etrans; [|exact Hsub]. by apply insert_subseteq.
  - rewrite Hsize, map_size_insert_None by done. simpl. lia.
  - intros r Hr. apply elem_of_cons in Hr as [->|Hr].
    + exists (next_id m). split; [done|].
      eapply lookup_weaken; [|exact Hsub]. apply lookup_insert_eq.
    + destruct (Hnew r Hr) as (k & Hk1 & Hk2). exists k. split; [|done].
      destruct (decide (k = next_id m)) as [->|Hne]; [done|].
      by rewrite lookup_insert_ne in Hk1.
  - intros k r Hk. destruct (Hold k r Hk) as [H|H].
    + destruct (decide (k = next_id m)) as [->|Hne].
      * rewrite lookup_insert_eq in H. injection H as ->. right. left.
      * rewrite lookup_insert_ne in H by done. by left.
    + right. by right.
Qed.

Lemma OfferDetail_of_data_Some offer d row :
  OfferDetail_of_data offer d = Some row →
  OfferDetail.offer row = offer
  ∧ DetailData.offer_type d = Some (OfferDetail.offer_type row).
Proof.
  unfold OfferDetail_of_data. destruct d as [t r dt p f ty]; simpl.
  destruct t, r, dt, p, f, ty; simpl; try discriminate.
  intros [= <-]. done.
Qed.

Lemma detail_is_complete_Some offer d :
  detail_is_complete d = true → is_Some (OfferDetail_of_data offer d).
Proof.
  unfold detail_is_complete, OfferDetail_of_data.
  rewrite bool_decide_eq_true.
  destruct d as [t r dt p f ty]; simpl.
  intros ([? ->] & [? ->] & [? ->] & [? ->] & [? ->] & [? ->]).
  simpl. eauto.
Qed.

Lemma create_detail_ok offer d row st :
  OfferDetail_of_data offer d = Some row →
  tier_taken offer (OfferDetail.offer_type row) (OfferDetail_objects st) = false →
  create_detail offer d st
  = (with_OfferDetail_objects (insert (next_id (OfferDetail_objects st)) row) st,
     Return tt).
Proof.
  intros Hd Ht. unfold create_detail, OfferDetail_objects_create. run.
  rewrite Hd, Ht. reflexivity.
Qed.

Lemma create_detail_taken offer d row st :
  OfferDetail_of_data offer d = Some row →
  tier_taken offer (OfferDetail.offer_type row) (OfferDetail_objects st) = true →
  create_detail offer d st = (st, Raise Create_Detail_failed).
Proof.
  intros Hd Ht. unfold create_detail, OfferDetail_objects_create. run.
  rewrite Hd, Ht. reflexivity.
Qed.

Lemma tier_taken_insert offer ty k row m :
  m !! k = None →
  tier_taken offer ty (<[k := row]> m)
  = tier_taken offer ty m
    || bool_decide (OfferDetail.offer row = offer
                    ∧ OfferDetail.offer_type row = ty).
Proof.
  intros Hk. apply eq_true_iff_eq.
  rewrite orb_true_iff, !tier_taken_true, bool_decide_eq_true. split.
  - intros (j & r & Hj & Ho & Ht).
    destruct (decide (k = j)) as [->|Hne].
    + rewrite lookup_insert_eq in Hj. injection Hj as ->. by right.
    + rewrite lookup_insert_ne in Hj by done. left. eauto.
  - intros [(j & r & Hj & Ho & Ht)|[Ho Ht]].
    + exists j, r. split; [|done]. rewrite lookup_insert_ne; [done|].
      intros ->. congruence.
    + exists k, row. by rewrite lookup_insert_eq.
Qed.

(** The inserting loop over details whose tiers are new and pairwise
    distinct inserts one row for each and goes on with the rest. *)
Lemma for_each_create_details offer pre rest rows st :
  Forall2 (λ d row, OfferDetail_of_data offer d = Some row) pre rows →
  NoDup (OfferDetail.offer_type <$> rows) →
  (∀ row, row ∈ rows →
     tier_taken offer (OfferDetail.offer_type row) (OfferDetail_objects st)
     = false) →
  ∃ m', extends_with (OfferDetail_objects st) m' rows
        ∧ for_each (pre ++ rest) (create_detail offer) st
          = for_each rest (create_detail offer)
              (with_OfferDetail_objects (λ _, m') st).
Proof.
  intros HF. revert st.
  induction HF as [|d row pre rows Hd HF IH]; intros st Hnd Hfree.
  - exists (OfferDetail_objects st). split; [apply extends_with_nil|].
    simpl. by destruct st.
  - rewrite fmap_cons in Hnd. apply NoDup_cons in Hnd as [Hnotin Hnd].
    pose proof (next_id_fresh (OfferDetail_objects st)) as Hfresh.
    pose proof (OfferDetail_of_data_Some _ _ _ Hd) as [Ho _].
    set (st1 := with_OfferDetail_objects
                  (insert (next_id (OfferDetail_objects st)) row) st).
    destruct (IH st1 Hnd) as (m' & Hext & Hrun).
    { intros r Hr. unfold st1. simpl.
      rewrite tier_taken_insert by done.
      rewrite Hfree by (by right). simpl.
      apply bool_decide_eq_false. intros [_ Ht].
      apply Hnotin. rewrite Ht. apply list_elem_of_fmap. eauto. }
    exists m'. split.
    + apply extends_with_cons. exact Hext.
    + simpl. run.
      rewrite (create_detail_ok _ _ _ _ Hd) by (apply Hfree; left).
      fold st1. 
      rewrite Hrun. reflexivity.
Qed.

Lemma no_detail_of_fresh_offer st f ty :
  details_reference_offers st →
  tier_taken (next_id (Offer_objects st)) ty
    (OfferDetail_objects (with_Offer_objects f st)) = false.
Proof.
  intros Hfk. apply tier_taken_false. simpl. intros k r Hk Ho _.
  destruct (Hfk k r Hk) as [x Hx]. rewrite Ho, next_id_fresh in Hx.
  discriminate.
Qed.

(** What a valid create request of a business profile runs. *)
Lemma offer_post_run (is_staff is_superuser : bool) (profile uid : Z)
    (title description : string) (ds : list DetailData.t) (st : Store) :
  forallb detail_is_complete ds = true →
  let request := mkRequest POST (Authenticated
      (mkUser is_staff is_superuser
              (Some (profile, UserProfile.mk uid "business")))) in
  let pk := next_id (Offer_objects st) in
  let row := Offer.mk profile title description in
  OfferListCreateView.post request
    (OfferData.mk (Some title) (Some description) (Some ds)) st
  = match for_each ds (create_detail pk)
            (with_Offer_objects (insert pk row) st) with
    | (st', Return _) =>
        (st', Return (OfferWriteResponseSerializer_to_representation st' (pk, row)))
    | (st', Raise e) => (st', Raise e)
    end.
Proof.
  intros Hc request pk row.
  unfold OfferListCreateView.post, OfferCreateSerializer_is_valid,
    OfferCreateSerializer_create, Offer_objects_create. run.
  rewrite Hc. simpl. fold pk.
  destruct (for_each ds (create_detail pk) _) as [st' [[]|e]]; reflexivity.
Qed.

Lemma complete_rows offer (ds : list DetailData.t) :
  forallb detail_is_complete ds = true →
  ∃ rows, Forall2 (λ d row, OfferDetail_of_data offer d = Some row) ds rows.
Proof.
  induction ds as [|d ds IH]; simpl.
  - exists []. constructor.
  - rewrite andb_true_iff. intros [Hd Hds].
    destruct (detail_is_complete_Some offer d Hd) as [row Hrow].
    destruct (IH Hds) as [rows Hrows]. exists (row :: rows). by constructor.
Qed.

Lemma rows_tiers offer (ds : list DetailData.t) rows :
  Forall2 (λ d row, OfferDetail_of_data offer d = Some row) ds rows →
  DetailData.offer_type <$> ds = Some <$> (OfferDetail.offer_type <$> rows).
Proof.
  induction 1 as [|d row ds rows Hd _ IH]; [done|].
  rewrite !fmap_cons, IH. f_equal.
  by destruct (OfferDetail_of_data_Some _ _ _ Hd).
Qed.

Lemma rows_offer offer (ds : list DetailData.t) rows :
  Forall2 (λ d row, OfferDetail_of_data offer d = Some row) ds rows →
  Forall (λ row, OfferDetail.offer row = offer) rows.
Proof.
  induction 1 as [|d row ds rows Hd _ IH]; constructor; [|done].
  by destruct (OfferDetail_of_data_Some _ _ _ Hd).
Qed.

(** C1, amended: when a nested detail repeats the tier of an earlier detail
    of the same create request, the create fails with the validation error
    (400), and nothing is rolled back: the parent offer stays in the store,
    and so does one new detail row for each detail before the repeating one;
    the repeating detail and those after it are not written. *)
Theorem C1_offer_create_keeps_partial_writes
    (is_staff is_superuser : bool) (profile uid : Z)
    (title description : string) (pre post : list DetailData.t)
    (d : DetailData.t) (st : Store) :
  details_reference_offers st →
  forallb detail_is_complete (pre ++ d :: post) = true →
  NoDup (DetailData.offer_type <$> pre) →
  DetailData.offer_type d ∈ DetailData.offer_type <$> pre →
  let request := mkRequest POST (Authenticated
      (mkUser is_staff is_superuser
              (Some (profile, UserProfile.mk uid "business")))) in
  let data := OfferData.mk (Some title) (Some description)
                           (Some (pre ++ d :: post)) in
  let res := OfferListCreateView.post request data st in
  let pk := next_id (Offer_objects st) in
  res.2 = Raise Create_Detail_failed
  ∧ status_code Create_Detail_failed = 400
  ∧ Offer_objects st !! pk = None
  ∧ Offer_objects res.1
    = <[pk := Offer.mk profile title description]> (Offer_objects st)
  ∧ OfferDetail_objects st ⊆ OfferDetail_objects res.1
  ∧ size (OfferDetail_objects res.1)
    = (size (OfferDetail_objects st) + length pre)%nat
  ∧ ∀ x, x ∈ pre →
      ∃ k row, OfferDetail_of_data pk x = Some row
               ∧ OfferDetail_objects st !! k = None
               ∧ OfferDetail_objects res.1 !! k = Some row.
Proof.
  intros Hfk Hc Hnd Hin request data res pk.
  subst res data request.
  rewrite offer_post_run by done. fold pk.
  set (row := Offer.mk profile title description).
  set (st0 := with_Offer_objects (insert pk row) st).
  rewrite forallb_app in Hc. apply andb_true_iff in Hc as [Hpre Hd].
  simpl in Hd. apply andb_true_iff in Hd as [Hd Hpost].
  destruct (complete_rows pk pre Hpre) as [rows Hrows].
  destruct (detail_is_complete_Some pk d Hd) as [rd Hrd].
  pose proof (rows_tiers _ _ _ Hrows) as Htiers.
  destruct (for_each_create_details pk pre (d :: post) rows st0 Hrows)
    as (m' & Hext & Hrun).
  { rewrite Htiers in Hnd. by apply NoDup_fmap_1 in Hnd. }
  { intros r _. by apply no_detail_of_fresh_offer. }
  rewrite Hrun. simpl. run.
  assert (Htaken : tier_taken pk (OfferDetail.offer_type rd) m' = true).
  { apply tier_taken_true.
    destruct (OfferDetail_of_data_Some _ _ _ Hrd) as [_ Hty].
    rewrite Hty, Htiers in Hin.
    apply list_elem_of_fmap in Hin as (ty & [= <-] & Hin).
    apply list_elem_of_fmap in Hin as (r & Hr1 & Hr2).
    destruct Hext as (_ & _ & Hnew & _).
    destruct (Hnew r Hr2) as (k & _ & Hk).
    exists k, r. split; [done|]. split; [|done].
    pose proof (rows_offer _ _ _ Hrows) as Ho.
    by eapply Forall_forall in Ho. }
  rewrite (create_detail_taken pk d rd) by done. simpl.
  destruct Hext as (Hsub & Hsize & Hnew & Hold).
  split; [done|]. split; [done|]. split; [apply next_id_fresh|].
  split; [done|]. split; [done|]. split.
  - rewrite Hsize. f_equal. by apply Forall2_length in Hrows.
  - intros x Hx.
    apply list_elem_of_lookup in Hx as [i Hi].
    destruct (Forall2_lookup_l _ _ _ _ _ Hrows Hi) as (r & Hr & Hxr).
    destruct (Hnew r) as (k & Hk1 & Hk2);
      [by eapply list_elem_of_lookup_2|].
    exists k, r. done.
Qed.

Lemma size_new_rows (o : Z) (m m' : gmap Z OfferDetail.t)
    (rows : list OfferDetail.t) :
  extends_with m m' rows →
  (∀ k r, m !! k = Some r → OfferDetail.offer r ≠ o) →
  Forall (λ r, OfferDetail.offer r = o) rows →
  size (filter (λ kv : Z * OfferDetail.t, OfferDetail.offer kv.2 = o) m')
  = length rows.
Proof.
  intros (Hsub & Hsize & Hnew & Hold) Hother Hrows.
  assert (Heq : filter (λ kv : Z * OfferDetail.t, OfferDetail.offer kv.2 = o) m'
                = m' ∖ m).
  { apply map_eq. intros k. rewrite lookup_difference.
    destruct (m !! k) as [r0|] eqn:Hk.
    - apply map_lookup_filter_None. right. intros r Hr. simpl.
      pose proof (lookup_weaken _ _ _ _ Hk Hsub) as Hr0.
      rewrite Hr in Hr0. injection Hr0 as ->. by eapply Hother.
    - destruct (m' !! k) as [r|] eqn:Hr.
      + apply map_lookup_filter_Some. split; [done|]. simpl.
        destruct (Hold k r Hr) as [H|H]; [congruence|].
        by eapply Forall_forall in Hrows.
      + apply map_lookup_filter_None. by left. }
  rewrite Heq.
  assert (Hu : size m' = (size m + size (m' ∖ m))%nat).
  { rewrite <- (map_difference_union m m') at 1 by done.
    apply map_size_disj_union. by apply map_disjoint_difference_r1. }
  lia.
Qed.

Lemma min_or_None_None (xs : list Z) : min_or_None xs = None ↔ xs = [].
Proof. destruct xs; simpl; split; done. Qed.

(** C9, amended: a create request of a business profile whose details are
    complete and of pairwise distinct tiers succeeds for every length of the
    details list, zero included: the offer is inserted, it has as many
    details as the request carried, and its minimum price and delivery time
    are null exactly when the list was empty. *)
Theorem C9_offer_create_accepts_any_number_of_details
    (is_staff is_superuser : bool) (profile uid : Z)
    (title description : string) (ds : list DetailData.t) (st : Store) :
  details_reference_offers st →
  forallb detail_is_complete ds = true →
  NoDup (DetailData.offer_type <$> ds) →
  let request := mkRequest POST (Authenticated
      (mkUser is_staff is_superuser
              (Some (profile, UserProfile.mk uid "business")))) in
  let res := OfferListCreateView.post request
               (OfferData.mk (Some title) (Some description) (Some ds)) st in
  let pk := next_id (Offer_objects st) in
  (∃ repr, res.2 = Return repr
           ∧ OfferRepr.id repr = pk
           ∧ length (OfferRepr.details repr) = length ds
           ∧ (OfferRepr.min_price repr = None ↔ ds = [])
           ∧ (OfferRepr.min_delivery_time repr = None ↔ ds = []))
  ∧ Offer_objects st !! pk = None
  ∧ Offer_objects res.1
    = <[pk := Offer.mk profile title description]> (Offer_objects st)
  ∧ length (details_of pk res.1) = length ds
  ∧ size (OfferDetail_objects res.1)
    = (size (OfferDetail_objects st) + length ds)%nat.
Proof.
  intros Hfk Hc Hnd request res pk. subst res request.
  rewrite offer_post_run by done. fold pk.
  set (row := Offer.mk profile title description).
  set (st0 := with_Offer_objects (insert pk row) st).
  destruct (complete_rows pk ds Hc) as [rows Hrows].
  pose proof (rows_tiers _ _ _ Hrows) as Htiers.
  pose proof (Forall2_length _ _ _ Hrows) as Hlen.
  destruct (for_each_create_details pk ds [] rows st0 Hrows)
    as (m' & Hext & Hrun).
  { rewrite Htiers in Hnd. by apply NoDup_fmap_1 in Hnd. }
  { intros r _. by apply no_detail_of_fresh_offer. }
  rewrite app_nil_r in Hrun. rewrite Hrun. simpl.
  assert (Hcount : length (details_of pk (with_OfferDetail_objects (λ _, m') st0))
                   = length ds).
  { unfold details_of. rewrite length_map_to_list. simpl. rewrite Hlen.
    eapply size_new_rows; [exact Hext| |by eapply rows_offer].
    intros k r Hk Ho. simpl in Hk.
    destruct (Hfk k r Hk) as [x Hx]. rewrite Ho in Hx.
    unfold pk in Hx. rewrite next_id_fresh in Hx. discriminate. }
  assert (Hnil : ∀ {B} (f : Z * OfferDetail.t → B),
            f <$> details_of pk (with_OfferDetail_objects (λ _, m') st0) = []
            ↔ ds = []).
  { intros B f. split.
    - intros H. apply fmap_nil_inv in H. rewrite H in Hcount.
      symmetry in Hcount. by apply nil_length_inv in Hcount.
    - intros ->. simpl in Hcount. apply nil_length_inv in Hcount.
      by rewrite Hcount. }
  destruct Hext as (Hsub & Hsize & Hnew & Hold).
  split; [|split; [apply next_id_fresh|split; [done|split; [done|]]]].
  - eexists. split; [reflexivity|]. simpl. split; [done|].
    split; [by rewrite length_fmap|].
    unfold get_min_price, get_min_delivery_time. simpl.
    rewrite !min_or_None_None. split; apply Hnil.
  - rewrite Hsize. simpl. by rewrite Hlen.
Qed.

(** ** Updating an offer with nested details *)

Lemma unmatched_insert E ty obj obj' d :
  E !! ty = Some obj →
  unmatched (<[ty := obj']> E) d ↔ unmatched E d.
Proof.
  intros HE. unfold unmatched. destruct (DetailData.offer_type d) as [t|];
    simpl; [|done].
  destruct (decide (ty = t)) as [->|Hne].
  - rewrite lookup_insert_eq, HE. done.
  - by rewrite lookup_insert_ne.
Qed.

Lemma update_details_match o E d rest obj st :
  DetailData.offer_type d ≫= (E !!.) = Some obj →
  let row' := setattrs_OfferDetail d obj.2 in
  update_details o E (d :: rest) st
  = update_details o (<[OfferDetail.offer_type row' := (obj.1, row')]> E) rest
      (with_OfferDetail_objects (insert obj.1 row') st).
Proof. intros H. simpl. rewrite H. reflexivity. Qed.

Lemma update_details_new o E d rest st :
  DetailData.offer_type d ≫= (E !!.) = None →
  update_details o E (d :: rest) st
  = match create_detail o d st with
    | (st', Return _) => update_details o E rest st'
    | (st', Raise e) => (st', Raise e)
    end.
Proof. intros H. simpl. rewrite H. reflexivity. Qed.

Lemma update_details_spec (o : Z) (ds : list DetailData.t) :
  ∀ (st : Store) (E : gmap OfferType (Z * OfferDetail.t)),
    let m := OfferDetail_objects st in
    let news := filter (unmatched E) ds in
    dict_ok o E m →
    (∀ k row, m !! k = Some row → OfferDetail.offer row = o →
       E !! OfferDetail.offer_type row = None →
       Some (OfferDetail.offer_type row) ∉ DetailData.offer_type <$> news) →
    Forall (λ d, detail_is_complete d = true) news →
    NoDup (DetailData.offer_type <$> news) →
    ∃ m',
      update_details o E ds st
      = (with_OfferDetail_objects (λ _, m') st, Return tt)
      ∧ (∀ ty obj, E !! ty = Some obj →
           m' !! obj.1 = Some (apply_details ty ds obj.2))
      ∧ (∀ d, d ∈ news →
           ∃ k row, OfferDetail_of_data o d = Some row
                    ∧ m !! k = None ∧ m' !! k = Some row)
      ∧ size m' = (size m + length news)%nat
      ∧ (∀ k row, m !! k = Some row →
           (∀ ty obj, E !! ty = Some obj → obj.1 ≠ k) →
           m' !! k = Some row).
Proof.
  induction ds as [|d rest IH]; intros st E m news Hok Hcov Hcompl Hnd.
  - exists m. simpl. split; [by destruct st|]. split; [|split; [|split]].
    + intros ty obj HE. by destruct (Hok ty obj HE) as (? & _).
    + intros d Hd. by apply elem_of_nil in Hd.
    + simpl. lia.
    + done.
  - destruct (DetailData.offer_type d ≫= (E !!.)) as [obj|] eqn:Hmatch0.
    all: pose proof Hmatch0 as Hmatch.
    + (* the tier is in the dictionary: update in place *)
      destruct (DetailData.offer_type d) as [ty|] eqn:Hty; [|discriminate].
      rewrite <- Hty in Hmatch0. simpl in Hmatch.
      destruct (Hok ty obj Hmatch) as (Hrow & Hoff & Htier).
      set (row' := setattrs_OfferDetail d obj.2).
      assert (Hty' : OfferDetail.offer_type row' = ty).
      { unfold row', setattrs_OfferDetail. simpl. by rewrite Hty. }
      set (st1 := with_OfferDetail_objects (insert obj.1 row') st).
      set (E1 := <[ty := (obj.1, row')]> E).
      assert (Hnews : filter (unmatched E1) rest = news).
      { unfold news. rewrite filter_cons_False
          by (unfold unmatched; rewrite Hty; simpl; by rewrite Hmatch).
        apply list_filter_iff. intros x. by eapply unmatched_insert. }
      assert (Hids : ∀ t2 obj2, E !! t2 = Some obj2 → t2 ≠ ty →
                obj2.1 ≠ obj.1).
      { intros t2 obj2 H2 Hne Heq.
        destruct (Hok t2 obj2 H2) as (Hrow2 & _ & Htier2).
        rewrite Heq, Hrow in Hrow2. injection Hrow2 as Hrow2.
        rewrite <- Hrow2 in Htier2. congruence. }
      destruct (IH st1 E1) as (m' & Hrun & Hupd & Hnew & Hsize & Hkeep).
      * intros t2 obj2 H2. unfold E1 in H2. simpl.
        destruct (decide (ty = t2)) as [<-|Hne].
        -- rewrite lookup_insert_eq in H2. injection H2 as <-. simpl.
           rewrite lookup_insert_eq. done.
        -- rewrite lookup_insert_ne in H2 by done.
           destruct (Hok t2 obj2 H2) as (? & ? & ?).
           rewrite lookup_insert_ne by (apply not_eq_sym; eauto). done.
      * rewrite Hnews. intros k row Hk Ho HE1. simpl in Hk.
        destruct (decide (obj.1 = k)) as [<-|Hne].
        -- rewrite lookup_insert_eq in Hk. injection Hk as <-.
           rewrite Hty' in HE1. unfold E1 in HE1.
           pose proof (lookup_insert_eq E ty (obj.1, row')) as X.
           congruence.
        -- rewrite lookup_insert_ne in Hk by done.
           apply (Hcov k row Hk Ho).
           unfold E1 in HE1.
           destruct (decide (ty = OfferDetail.offer_type row)) as [Heq|Hne2].
           ++ rewrite <- Heq, lookup_insert_eq in HE1. discriminate.
           ++ by rewrite lookup_insert_ne in HE1.
      * by rewrite Hnews.
      * by rewrite Hnews.
      * exists m'. rewrite Hnews in *. split; [|split; [|split; [|split]]].
        -- rewrite (update_details_match o E d rest obj st Hmatch0).
           cbv zeta. fold row'. rewrite Hty'. fold st1 E1. rewrite Hrun.
           by destruct st.
        -- intros t2 obj2 H2. unfold apply_details.
           destruct (decide (ty = t2)) as [<-|Hne].
           ++ rewrite Hmatch in H2. injection H2 as <-.
              rewrite filter_cons_True by done. simpl.
              specialize (Hupd ty (obj.1, row')). unfold E1 in Hupd.
              rewrite lookup_insert_eq in Hupd. by apply Hupd.
           ++ rewrite filter_cons_False by (rewrite Hty; congruence).
              apply (Hupd t2 obj2). unfold E1. by rewrite lookup_insert_ne.
        -- intros x Hx. destruct (Hnew x Hx) as (k & row & H1 & H2 & H3).
           exists k, row. split; [done|]. split; [|done].
           simpl in H2. destruct (decide (obj.1 = k)) as [<-|Hne].
           ++ by rewrite lookup_insert_eq in H2.
           ++ by rewrite lookup_insert_ne in H2.
        -- rewrite Hsize. simpl. f_equal.
           rewrite map_size_insert_Some; [done|]. exists obj.2. exact Hrow.
        -- intros k row Hk Hnot. apply Hkeep.
           ++ simpl. rewrite lookup_insert_ne; [done|].
              apply (Hnot ty obj Hmatch).
           ++ intros t2 obj2 H2. unfold E1 in H2.
              destruct (decide (ty = t2)) as [<-|Hne].
              ** rewrite lookup_insert_eq in H2. injection H2 as <-. simpl.
                 apply (Hnot ty obj Hmatch).
              ** rewrite lookup_insert_ne in H2 by done. by eapply Hnot.
    + (* no entry for the tier: insert *)
      assert (Hnews : news = d :: filter (unmatched E) rest).
      { unfold news. by rewrite filter_cons_True. }
      rewrite Hnews in Hcompl, Hnd, Hcov.
      apply Forall_cons in Hcompl as [Hd Hcompl].
      rewrite fmap_cons in Hnd, Hcov. apply NoDup_cons in Hnd as [Hnotin Hnd].
      destruct (detail_is_complete_Some o d Hd) as [row Hrow].
      destruct (OfferDetail_of_data_Some _ _ _ Hrow) as [Hoff Hty].
      rewrite Hty in Hmatch, Hnotin, Hcov. simpl in Hmatch.
      pose proof (next_id_fresh m) as Hfresh.
      assert (Hfree : tier_taken o (OfferDetail.offer_type row) m = false).
      { apply tier_taken_false. intros k r Hk Ho Ht.
        apply (Hcov k r Hk Ho); [by rewrite Ht|]. rewrite Ht. left. }
      set (st1 := with_OfferDetail_objects (insert (next_id m) row) st).
      assert (Hdict_ids : ∀ ty obj, E !! ty = Some obj → obj.1 ≠ next_id m).
      { intros ty obj HE Heq. destruct (Hok ty obj HE) as (H1 & _).
        rewrite Heq, Hfresh in H1. discriminate. }
      destruct (IH st1 E) as (m' & Hrun & Hupd & Hnew & Hsize & Hkeep).
      * intros ty obj HE. simpl. destruct (Hok ty obj HE) as (? & ? & ?).
        rewrite lookup_insert_ne by (apply not_eq_sym; eauto). done.
      * intros k r Hk Ho HE. simpl in Hk.
        destruct (decide (next_id m = k)) as [<-|Hne].
        -- rewrite lookup_insert_eq in Hk. injection Hk as <-. done.
        -- rewrite lookup_insert_ne in Hk by done.
           intros Hin. apply (Hcov k r Hk Ho HE). by right.
      * done.
      * done.
      * exists m'. rewrite Hnews. split; [|split; [|split; [|split]]].
        -- rewrite (update_details_new o E d rest st Hmatch0).
           rewrite (create_detail_ok o d row st Hrow Hfree). fold m st1.
           rewrite Hrun. by destruct st.
        -- intros ty obj HE. unfold apply_details.
           rewrite filter_cons_False.
           ++ by apply Hupd.
           ++ rewrite Hty. intros [= <-]. congruence.
        -- intros x Hx. apply elem_of_cons in Hx as [->|Hx].
           ++ exists (next_id m), row. split; [done|]. split; [done|].
              apply Hkeep; [simpl; apply lookup_insert_eq|done].
           ++ destruct (Hnew x Hx) as (k & r & H1 & H2 & H3).
              exists k, r. split; [done|]. split; [|done].
              simpl in H2. destruct (decide (next_id m = k)) as [<-|Hne].
              ** done.
              ** by rewrite lookup_insert_ne in H2.
        -- rewrite Hsize. simpl.
           rewrite map_size_insert_None by done. fold m. simpl. lia.
        -- intros k r Hk Hnot. apply Hkeep; [|done]. simpl.
           rewrite lookup_insert_ne; [done|]. intros <-. congruence.
Qed.

Lemma elem_of_details_of o st obj :
  obj ∈ details_of o st ↔
  OfferDetail_objects st !! obj.1 = Some obj.2 ∧ OfferDetail.offer obj.2 = o.
Proof.
  destruct obj as [k r]. unfold details_of.
  rewrite elem_of_map_to_list, map_lookup_filter_Some. done.
Qed.

Lemma by_offer_type_foldl (l : list (Z * OfferDetail.t))
    (acc : gmap OfferType (Z * OfferDetail.t)) ty obj :
  foldl (λ a d, <[OfferDetail.offer_type d.2 := d]> a) acc l !! ty = Some obj →
  (obj ∈ l ∧ OfferDetail.offer_type obj.2 = ty) ∨ acc !! ty = Some obj.
Proof.
  revert acc. induction l as [|x l IH]; intros acc H; simpl in H.
  - by right.
  - destruct (IH _ H) as [[H1 H2]|H1].
    + left. split; [by right|done].
    + destruct (decide (OfferDetail.offer_type x.2 = ty)) as [Heq|Hne].
      * rewrite <- Heq, lookup_insert_eq in H1. injection H1 as <-.
        left. split; [left|done].
      * rewrite lookup_insert_ne in H1 by done. by right.
Qed.

Lemma by_offer_type_lookup l ty obj :
  by_offer_type l !! ty = Some obj →
  obj ∈ l ∧ OfferDetail.offer_type obj.2 = ty.
Proof.
  intros H. destruct (by_offer_type_foldl _ _ _ _ H) as [?|H1]; [done|].
  by rewrite lookup_empty in H1.
Qed.

Lemma by_offer_type_foldl_dom (l : list (Z * OfferDetail.t))
    (acc : gmap OfferType (Z * OfferDetail.t)) ty :
  (∃ obj, obj ∈ l ∧ OfferDetail.offer_type obj.2 = ty) ∨ is_Some (acc !! ty) →
  is_Some (foldl (λ a d, <[OfferDetail.offer_type d.2 := d]> a) acc l !! ty).
Proof.
  revert acc. induction l as [|x l IH]; intros acc H; simpl.
  - destruct H as [(obj & H & _)|H]; [by apply elem_of_nil in H|done].
  - apply IH. destruct H as [(obj & H & Hty)|H].
    + apply elem_of_cons in H as [->|H].
      * right. rewrite Hty, lookup_insert_eq. eauto.
      * left. eauto.
    + right. destruct (decide (OfferDetail.offer_type x.2 = ty)) as [Heq|Hne].
      * rewrite <- Heq, lookup_insert_eq. eauto.
      * by rewrite lookup_insert_ne.
Qed.

Lemma by_offer_type_None o st ty :
  by_offer_type (details_of o st) !! ty = None ↔
  tier_taken o ty (OfferDetail_objects st) = false.
Proof.
  rewrite tier_taken_false. split.
  - intros HN k r Hk Ho Hty.
    assert (is_Some (by_offer_type (details_of o st) !! ty)) as [x Hx].
    { apply by_offer_type_foldl_dom. left. exists (k, r).
      split; [|done]. by apply elem_of_details_of. }
    congruence.
  - intros H. destruct (by_offer_type _ !! ty) as [obj|] eqn:E; [|done].
    apply by_offer_type_lookup in E as [Hin Hty].
    apply elem_of_details_of in Hin as [H1 H2].
    exfalso. by eapply H.
Qed.

Lemma by_offer_type_unique o st k row :
  tier_unique_per_offer st →
  OfferDetail_objects st !! k = Some row → OfferDetail.offer row = o →
  by_offer_type (details_of o st) !! OfferDetail.offer_type row = Some (k, row).
Proof.
  intros Hu Hk Ho.
  destruct (by_offer_type (details_of o st) !! OfferDetail.offer_type row)
    as [obj|] eqn:E.
  - apply by_offer_type_lookup in E as [Hin Hty].
    apply elem_of_details_of in Hin as [H1 H2].
    assert (obj.1 = k) by (eapply Hu; eauto; congruence).
    destruct obj as [k' r']. simpl in *. subst k'. congruence.
  - apply by_offer_type_None in E. rewrite tier_taken_false in E.
    exfalso. by eapply E.
Qed.

(** The whole update in closed form, for a request whose details of new
    tiers are all accepted by the store (each carries every attribute and no
    two share a tier): the update succeeds and
    - every detail row the offer had keeps its key and holds the submitted
      details of its tier applied in order (in place, matched by tier);
    - every submitted detail of a tier the offer did not have is a new row;
    - the table grows by exactly those new rows, and details of other offers
      are untouched. *)
Lemma offer_update_with_accepted_details (partial : bool) (mth : Method)
    (u : User) (p : UserProfile.t) (o : Z) (offer_row : Offer.t)
    (data : OfferData.t) (ds : list DetailData.t) (st : Store) :
  mth = PUT ∨ mth = PATCH →
  Offer_objects st !! o = Some offer_row →
  userprofile u = Some (Offer.user_profile offer_row, p) →
  OfferData.details data = Some ds →
  OfferCreateSerializer_is_valid partial data st = (st, Return data) →
  tier_unique_per_offer st →
  let m := OfferDetail_objects st in
  let news := filter (matches_no_existing o m) ds in
  Forall (λ d, detail_is_complete d = true) news →
  NoDup (DetailData.offer_type <$> news) →
  let res := OfferDetailView.update partial (mkRequest mth (Authenticated u))
               o data st in
  let m' := OfferDetail_objects res.1 in
  (∃ repr, res.2 = Return repr)
  ∧ (∀ k row, m !! k = Some row → OfferDetail.offer row = o →
       m' !! k = Some (apply_details (OfferDetail.offer_type row) ds row))
  ∧ (∀ k row, m !! k = Some row → OfferDetail.offer row ≠ o →
       m' !! k = Some row)
  ∧ (∀ d, d ∈ news →
       ∃ k row, OfferDetail_of_data o d = Some row
                ∧ m !! k = None ∧ m' !! k = Some row)
  ∧ size m' = (size m + length news)%nat.
Proof.
  intros Hm Hoffer Hu Hds Hvalid Huniq m news Hcompl Hnd res m'.
  set (row1 := setattrs_Offer data offer_row).
  set (st0 := with_Offer_objects (insert o row1) st).
  set (E := by_offer_type (details_of o st)).
  assert (HnewsE : filter (unmatched E) ds = news).
  { apply list_filter_iff. intros d. unfold unmatched, matches_no_existing.
    destruct (DetailData.offer_type d) as [ty|]; simpl; [|done].
    apply by_offer_type_None. }
  destruct (update_details_spec o ds st0 E)
    as (mf & Hrun & Hupd & Hnew & Hsize & Hkeep).
  - intros ty obj HE. simpl. apply by_offer_type_lookup in HE as [Hin Hty].
    apply elem_of_details_of in Hin as [H1 H2]. done.
  - intros k row Hk Ho HE. simpl in Hk. exfalso.
    apply by_offer_type_None in HE. rewrite tier_taken_false in HE.
    by eapply HE.
  - by rewrite HnewsE.
  - by rewrite HnewsE.
  - rewrite HnewsE in *. simpl in Hnew, Hsize, Hkeep.
    assert (Hres : res = (with_OfferDetail_objects (λ _, mf) st0,
                          Return (OfferWriteResponseSerializer_to_representation
                                    (with_OfferDetail_objects (λ _, mf) st0)
                                    (o, row1)))).
    { unfold res, OfferDetailView.update, get_object. run.
      rewrite Hoffer. simpl.
      unfold OfferDetailView.has_object_permission,
        IsAuthenticatedForReadAndBusinessOwnerForWrite.has_object_permission.
      simpl. rewrite Hu.
      assert (is_safe mth = false) as -> by (by destruct Hm as [-> | ->]).
      rewrite bool_decide_eq_true_2 by done. simpl.
      rewrite Hvalid. simpl.
      unfold OfferCreateSerializer_update. run. rewrite Hds.
      unfold Offer_save. run. fold row1 st0.
      change (details_of o st0) with (details_of o st). fold E.
      rewrite Hrun. reflexivity. }
    subst m'. rewrite Hres. simpl.
    split; [eauto|]. split; [|split; [|split]].
    + intros k row Hk Ho.
      apply (Hupd (OfferDetail.offer_type row) (k, row)).
      by apply by_offer_type_unique.
    + intros k row Hk Ho. apply Hkeep; [done|].
      intros ty obj HE Heq. apply by_offer_type_lookup in HE as [Hin Hty].
      apply elem_of_details_of in Hin as [H1 H2].
      rewrite Heq in H1. unfold m in Hk. congruence.
    + done.
    + done.
Qed.

(** ** The details of an update, one after another *)

Lemma create_detail_keeps_other_tables offer d st :
  let st' := (create_detail offer d st).1 in
  UserProfile_objects st' = UserProfile_objects st
  ∧ Offer_objects st' = Offer_objects st
  ∧ Order_objects st' = Order_objects st
  ∧ Review_objects st' = Review_objects st.
Proof.
  unfold create_detail, OfferDetail_objects_create. run.
  destruct (OfferDetail_of_data offer d); simpl; [|done].
  destruct (tier_taken _ _ _); simpl; done.
Qed.

Lemma update_details_keeps_other_tables o ds :
  ∀ E st,
    UserProfile_objects (update_details o E ds st).1 = UserProfile_objects st
    ∧ Offer_objects (update_details o E ds st).1 = Offer_objects st
    ∧ Order_objects (update_details o E ds st).1 = Order_objects st
    ∧ Review_objects (update_details o E ds st).1 = Review_objects st.
Proof.
  induction ds as [|d rest IH]; intros E st; [done|].
  destruct (DetailData.offer_type d ≫= (E !!.)) as [obj|] eqn:Hm.
  - rewrite (update_details_match o E d rest obj st Hm). cbv zeta.
    destruct (IH (<[OfferDetail.offer_type (setattrs_OfferDetail d obj.2)
                    := (obj.1, setattrs_OfferDetail d obj.2)]> E)
                 (with_OfferDetail_objects
                    (insert obj.1 (setattrs_OfferDetail d obj.2)) st))
      as (H1 & H2 & H3 & H4).
    rewrite H1, H2, H3, H4. done.
  - rewrite (update_details_new o E d rest st Hm).
    pose proof (create_detail_keeps_other_tables o d st) as Hc.
    cbv zeta in Hc.
    destruct (create_detail o d st) as [st1 [[]|e]]; simpl in Hc.
    + destruct (IH E st1) as (H1 & H2 & H3 & H4).
      destruct Hc as (G1 & G2 & G3 & G4).
      rewrite H1, H2, H3, H4. done.
    + exact Hc.
Qed.

(** What an update of the owner runs once the input is valid. *)
Lemma offer_update_run (partial : bool) (mth : Method) (u : User)
    (p : UserProfile.t) (pk : Z) (row : Offer.t) (data : OfferData.t)
    (st : Store) :
  mth = PUT ∨ mth = PATCH →
  Offer_objects st !! pk = Some row →
  userprofile u = Some (Offer.user_profile row, p) →
  OfferCreateSerializer_is_valid partial data st = (st, Return data) →
  let row' := setattrs_Offer data row in
  let st0 := with_Offer_objects (insert pk row') st in
  OfferDetailView.update partial (mkRequest mth (Authenticated u)) pk data st
  = match OfferData.details data with
    | Some ds =>
        match update_details pk (by_offer_type (details_of pk st)) ds st0 with
        | (st', Return _) =>
            (st', Return (OfferWriteResponseSerializer_to_representation
                            st' (pk, row')))
        | (st', Raise e) => (st', Raise e)
        end
    | None =>
        (st0, Return (OfferWriteResponseSerializer_to_representation
                        st0 (pk, row')))
    end.
Proof.
  intros Hm Hrow Hu Hvalid row' st0.
  unfold OfferDetailView.update.
  bind_return; [|reflexivity].
  bind_return.
  2:{ unfold get_object.
      bind_return; [|unfold gets; rewrite Hrow; reflexivity].
      bind_return; [reflexivity|].
      unfold check_object_permissions, OfferDetailView.has_object_permission,
        IsAuthenticatedForReadAndBusinessOwnerForWrite.has_object_permission.
      simpl.
      assert (is_safe mth = false) as -> by (by destruct Hm as [-> | ->]).
      rewrite Hu. rewrite bool_decide_eq_true_2 by done. reflexivity. }
  bind_return; [|exact Hvalid].
  unfold OfferCreateSerializer_update. fold row'. simpl.
  destruct (OfferData.details data) as [ds|].
  - subst row' st0. run.
    change (details_of pk
              (with_Offer_objects (insert pk (setattrs_Offer data row)) st))
      with (details_of pk st).
    destruct (update_details pk _ ds _) as [st' [[]|e]]; reflexivity.
  - reflexivity.
Qed.








(** * The properties on the sample marketplace *)

Lemma sample_details_reference_offers :
  details_reference_offers Sample.profiles_only.
Proof. intros k d H. simpl in H. rewrite lookup_empty in H. discriminate. Qed.


(** C1 as stated fails: a create whose second detail repeats the tier of
    the first is refused, yet the offer and the first detail are in the
    store afterwards. *)
Lemma C1_counterexample :
  let res := OfferListCreateView.post
               (mkRequest POST (Authenticated Sample.user_business))
               (Sample.logo_offer [Sample.package basic 1000 3;
                                   Sample.package basic 2000 2])
               Sample.profiles_only in
  res.2 = Raise Create_Detail_failed
  ∧ Offer_objects Sample.profiles_only = ∅
  ∧ OfferDetail_objects Sample.profiles_only = ∅
  ∧ Offer_objects res.1 !! 1
    = Some (Offer.mk 1 "Logo Design" "I design a logo")
  ∧ OfferDetail_objects res.1 !! 1
    = Some (OfferDetail.mk 1 "Package" 1 3 1000 ["source files"] basic).
Proof. vm_compute. repeat split. Qed.

Lemma C1_witness :
  details_reference_offers Sample.profiles_only
  ∧ (OfferListCreateView.post
       (mkRequest POST (Authenticated Sample.user_business))
       (Sample.logo_offer ([Sample.package basic 1000 3]
                           ++ Sample.package basic 2000 2 :: []))
       Sample.profiles_only).2
    = Raise Create_Detail_failed.
Proof.
  split; [exact sample_details_reference_offers|].
  refine (proj1 (C1_offer_create_keeps_partial_writes false false 1 10
            "Logo Design" "I design a logo"
            [Sample.package basic 1000 3] [] (Sample.package basic 2000 2)
            Sample.profiles_only sample_details_reference_offers _ _ _)).
  - reflexivity.
  - apply (bool_decide_unpack _). vm_compute. exact I.
  - apply (bool_decide_unpack _). vm_compute. exact I.
Defined.





Lemma sample_one_review_per_pair : one_review_per_pair Sample.store.
Proof.
  intros i j x y H.
  change (Review_objects Sample.store) with (∅ : gmap Z Review.t) in H.
  rewrite lookup_empty in H. discriminate.
Qed.

Lemma C7_witness :
  userprofile Sample.user_customer = Some Sample.profile_customer
  ∧ one_review_per_pair Sample.store
  ∧ ReviewData.business_user (Sample.review 4)
    = ReviewData.business_user (Sample.review 5)
  ∧ one_review_per_pair
      (ReviewSerializer_create
         (mkRequest POST (Authenticated Sample.user_customer))
         (Sample.review 5) Sample.store).1.
Proof.
  split; [reflexivity|]. split; [exact sample_one_review_per_pair|].
  split; [reflexivity|].
  refine (proj1 (C7_one_review_per_pair Sample.user_customer 2
            Sample.profile_customer.2 (Sample.review 5) (Sample.review 4)
            Sample.store _ sample_one_review_per_pair _)); reflexivity.
Defined.

(** C9 as stated fails: a create request whose details list is empty is
    accepted, and the offer it creates has no detail. *)
Lemma C9_counterexample :
  let res := OfferListCreateView.post
               (mkRequest POST (Authenticated Sample.user_business))
               (Sample.logo_offer []) Sample.profiles_only in
  res.2 = Return (OfferRepr.mk 1 "Logo Design" "I design a logo" [] 1 None None)
  ∧ Offer_objects res.1 !! 1
    = Some (Offer.mk 1 "Logo Design" "I design a logo")
  ∧ details_of 1 res.1 = [].
Proof. vm_compute. repeat split. Qed.

Lemma C9_witness :
  details_reference_offers Sample.profiles_only
  ∧ length (details_of (next_id (Offer_objects Sample.profiles_only))
              (OfferListCreateView.post
                 (mkRequest POST (Authenticated Sample.user_business))
                 (Sample.logo_offer []) Sample.profiles_only).1)
    = length (@nil DetailData.t).
Proof.
  split; [exact sample_details_reference_offers|].
  refine (proj1 (proj2 (proj2 (proj2
            (C9_offer_create_accepts_any_number_of_details false false 1 10
               "Logo Design" "I design a logo" [] Sample.profiles_only
               sample_details_reference_offers _ _))))).
  - reflexivity.
  - constructor.
Defined.

Lemma C10_witness :
  delete "customer_user" (<["customer_user" := 77]> Sample.order_body)
  = delete "customer_user" Sample.order_body
  ∧ OrderListCreateView.post Sample.int_field Sample.choice_field
      (mkRequest POST (Authenticated Sample.user_customer))
      (<["customer_user" := 77]> Sample.order_body) Sample.store
    = OrderListCreateView.post Sample.int_field Sample.choice_field
        (mkRequest POST (Authenticated Sample.user_customer))
        Sample.order_body Sample.store.
Proof.
  split; [vm_compute; reflexivity|].
  refine (proj1 (C10_customer_user_is_read_only Sample.int_field
            Sample.choice_field
            (mkRequest POST (Authenticated Sample.user_customer))
            (<["customer_user" := 77]> Sample.order_body) Sample.order_body
            Sample.store _)).
  vm_compute. reflexivity.
Defined.

(** * Further properties of [sales_app/api] *)

(** ** Single orders *)

Ltac run_perm :=
  unfold OrderDetailView.has_object_permission,
    IsStaffForDeleteOrOrderPartyForReadAndBusinessOwnerForWrite.has_object_permission,
    IsStaffForDeleteOrOrderPartyForReadAndBusinessOwnerForWrite.is_order_party,
    IsStaffForDeleteOrOrderPartyForReadAndBusinessOwnerForWrite.offer_owner
    in *.

(** X1: deleting an existing order is for staff and superusers only: for
    them the order row is removed and nothing else changes; every other
    authenticated caller, the ordering customer and the owning business
    included, is refused (403) and the store is untouched. *)
Theorem order_destroy_is_for_staff_only (u : User) (pk : Z) (row : Order.t)
    (st : Store) :
  Order_objects st !! pk = Some row →
  OrderDetailView.destroy (mkRequest DELETE (Authenticated u)) pk st
  = if is_staff u || is_superuser u
    then (with_Order_objects (delete pk) st, Return tt)
    else (st, Raise forbidden).
Proof.
  intros Hrow. unfold OrderDetailView.destroy, OrderDetailView.get_object.
  run. rewrite Hrow. simpl. run_perm. simpl.
  destruct (is_staff u || is_superuser u); reflexivity.
Qed.

(** X2: for a caller who is neither staff nor superuser, the read permission
    on a single order agrees with the order list: an order of the store may
    be read exactly when the caller's own list contains it, and a caller
    whose list is refused may read no order. *)
Theorem order_read_permission_agrees_with_list (u : User) (pk : Z)
    (row : Order.t) (st : Store) :
  is_staff u = false → is_superuser u = false →
  Order_objects st !! pk = Some row →
  let request := mkRequest GET (Authenticated u) in
  let allowed := (OrderDetailView.has_object_permission request (pk, row) st).2 in
  match (OrderListCreateView.get_queryset request st).2 with
  | Return l => allowed = Return true ↔ (pk, row) ∈ l
  | Raise _ => allowed = Return false
  end.
Proof.
  intros Hs Hsu Hrow request allowed. subst allowed request.
  unfold OrderListCreateView.get_queryset. run_perm. simpl.
  rewrite Hs, Hsu. simpl.
  destruct (userprofile u) as [[p_pk p]|]; [|reflexivity].
  destruct (decide (UserProfile.type p = "customer")) as [Hc|Hc].
  - simpl. rewrite elem_of_map_to_list, map_lookup_filter_Some. simpl.
    split.
    + intros [= H]. apply bool_decide_eq_true in H. done.
    + intros [_ H]. by rewrite bool_decide_eq_true_2.
  - destruct (decide (UserProfile.type p = "business")) as [Hb|Hb].
    + run. rewrite elem_of_map_to_list, map_lookup_filter_Some. simpl.
      destruct (get_business_user st row) as [owner|]; simpl.
      * split.
        -- intros [= H]. apply bool_decide_eq_true in H. by subst.
        -- intros [_ [= ->]]. by rewrite bool_decide_eq_true_2.
      * split; [discriminate|]. intros [_ ?]. discriminate.
    + simpl. split; [discriminate|]. intros H. by apply elem_of_nil in H.
Qed.

(** X3: the object permissions on an order are nested: whoever may delete
    may update, PUT and PATCH are decided alike, whoever may update may
    read, and no other method is ever allowed. *)
Theorem order_permissions_are_nested (u : User) (obj : Z * Order.t)
    (st : Store) :
  let allowed m :=
    (OrderDetailView.has_object_permission
       (mkRequest m (Authenticated u)) obj st).2 = Return true in
  (allowed DELETE → allowed PATCH)
  ∧ (allowed PATCH ↔ allowed PUT)
  ∧ (allowed PATCH → allowed GET)
  ∧ ¬ allowed POST.
Proof.
  cbv zeta. run_perm. simpl.
  destruct (is_staff u || is_superuser u) eqn:Hst; simpl.
  { repeat split; try done. }
  split; [discriminate|]. split; [done|]. split; [|discriminate].
  destruct (userprofile u) as [[p_pk p]|]; [|done].
  destruct (decide (UserProfile.type p ≠ "business")) as [Hb|Hb]; [done|].
  apply dec_stable in Hb.
  destruct (decide (UserProfile.type p = "customer")) as [Hc|Hc];
    [congruence|].
  destruct (decide (UserProfile.type p = "business")); [done|congruence].
Qed.

Lemma order_view_admits_authenticated (u : User) (mth : Method) (st : Store) :
  check_permissions OrderDetailView.has_permission
    (mkRequest mth (Authenticated u)) st = (st, Return tt).
Proof. reflexivity. Qed.

Lemma order_get_object_allowed request pk row st :
  Order_objects st !! pk = Some row →
  OrderDetailView.has_object_permission request (pk, row) st
    = (st, Return true) →
  OrderDetailView.get_object request pk st = (st, Return (pk, row)).
Proof.
  intros Hrow Hperm. unfold OrderDetailView.get_object.
  bind_return; [|unfold gets; rewrite Hrow; reflexivity].
  bind_return; [|exact Hperm]. reflexivity.
Qed.

Lemma order_get_object_denied request pk row st :
  Order_objects st !! pk = Some row →
  OrderDetailView.has_object_permission request (pk, row) st
    = (st, Return false) →
  OrderDetailView.get_object request pk st = permission_denied request st.
Proof.
  intros Hrow Hperm. unfold OrderDetailView.get_object.
  bind_return; [|unfold gets; rewrite Hrow; reflexivity].
  bind_return; [|exact Hperm]. reflexivity.
Qed.

Lemma owner_may_update (u : User) (owner : Z) (p : UserProfile.t)
    (mth : Method) (obj : Z * Order.t) (st : Store) :
  mth = PATCH ∨ mth = PUT →
  userprofile u = Some (owner, p) →
  UserProfile.type p = "business" →
  get_business_user st obj.2 = Some owner →
  OrderDetailView.has_object_permission (mkRequest mth (Authenticated u)) obj st
  = (st, Return true).
Proof.
  intros Hm Hu Hb Hown. run_perm. simpl. rewrite Hu.
  assert (is_safe mth = false) as -> by (by destruct Hm as [-> | ->]).
  destruct (decide (mth = DELETE)) as [->|_]; [by destruct Hm|].
  destruct (decide (mth = PATCH ∨ mth = PUT)); [|done].
  destruct (is_staff u || is_superuser u); [reflexivity|].
  destruct (decide (UserProfile.type p ≠ "business")); [done|].
  run. rewrite Hown. simpl. by rewrite bool_decide_eq_true_2.
Qed.

Section OrderUpdate.
Context {JSON : Type}.
Variable int_field : JSON → option Z.
Variable choice_field : JSON → option OrderStatus.

Lemma status_is_declared :
  "status" ∈ (list_to_set OrderSerializer_fields : gset string).
Proof.
  rewrite elem_of_list_to_set. unfold OrderSerializer_fields.
  repeat (first [apply list_elem_of_here | apply list_elem_of_further]).
Qed.

Lemma status_body_is_valid (v : JSON) (s : OrderStatus) (st : Store) :
  choice_field v = Some s →
  OrderSerializer_to_internal_value_on_update int_field choice_field true
    {[ "status" := v ]} st
  = (st, Return (OrderUpdateData.mk (Some s) None)).
Proof.
  intros Hv. unfold OrderSerializer_to_internal_value_on_update.
  assert (unexpected_fields OrderSerializer_fields
            ({[ "status" := v ]} : gmap string JSON) = ∅) as ->.
  { unfold unexpected_fields. rewrite dom_singleton_L.
    pose proof status_is_declared as Hin.
    apply set_eq. intros x.
    rewrite elem_of_difference, elem_of_singleton, elem_of_empty.
    split; [|done]. intros [-> Hx]. done. }
  destruct (decide (∅ ≠ ∅)) as [H|_]; [done|].
  unfold read_status, read_offer_detail_id_on_update.
  rewrite lookup_singleton_eq, Hv, lookup_singleton_ne by done.
  reflexivity.
Qed.

Lemma order_status_update_run (u : User) (owner : Z)
    (p : UserProfile.t) (pk : Z) (row : Order.t) (v : JSON) (s : OrderStatus)
    (st : Store) :
  userprofile u = Some (owner, p) →
  UserProfile.type p = "business" →
  Order_objects st !! pk = Some row →
  get_business_user st row = Some owner →
  choice_field v = Some s →
  let row' := Order.mk (Order.customer_user row) (Order.offer_detail row) s in
  ∃ repr,
    OrderDetailView.update int_field choice_field true
      (mkRequest PATCH (Authenticated u)) pk {[ "status" := v ]} st
    = (with_Order_objects (insert pk row') st, Return repr)
    ∧ OrderSerializer_to_representation
        (with_Order_objects (insert pk row') st) (pk, row') = Some repr.
Proof.
  intros Hu Hb Hrow Hown Hv row'.
  assert (Hd : is_Some (OfferDetail_objects st !! Order.offer_detail row)).
  { unfold get_business_user, related_offer_detail in Hown.
    destruct (OfferDetail_objects st !! Order.offer_detail row); [eauto|].
    discriminate. }
  destruct (business_order_representable
              (with_Order_objects (insert pk row') st) (pk, row') owner Hown)
    as [r Hr].
  exists r. split; [|exact Hr].
  unfold OrderDetailView.update.
  bind_return; [|apply order_view_admits_authenticated].
  bind_return;
    [|apply (order_get_object_allowed _ _ row); [done|];
      by eapply owner_may_update; [left| | |]].
  bind_return; [|by apply status_body_is_valid].
  bind_return.
  2:{ unfold OrderSerializer_update.
      bind_return; [reflexivity|].
      unfold Order_save. simpl. rewrite bool_decide_eq_true_2 by done.
      reflexivity. }
  simpl. fold row'. unfold OrderListCreateView.serialize.
  bind_return; [|unfold gets; rewrite Hr; reflexivity].
  reflexivity.
Qed.

(** X4: the business that owns the offer of an order can set its status to
    any value from any value: a PATCH carrying only a valid [status] succeeds,
    rewrites the status of that one row and answers with the new status. *)
Theorem order_status_can_be_set_to_any_value (u : User) (owner : Z)
    (p : UserProfile.t) (pk : Z) (row : Order.t) (v : JSON) (s : OrderStatus)
    (st : Store) :
  userprofile u = Some (owner, p) →
  UserProfile.type p = "business" →
  Order_objects st !! pk = Some row →
  get_business_user st row = Some owner →
  choice_field v = Some s →
  let row' := Order.mk (Order.customer_user row) (Order.offer_detail row) s in
  ∃ repr,
    OrderDetailView.update int_field choice_field true
      (mkRequest PATCH (Authenticated u)) pk {[ "status" := v ]} st
    = (with_Order_objects (insert pk row') st, Return repr)
    ∧ OrderRepr.status repr = s
    ∧ OrderRepr.id repr = pk.
Proof.
  intros Hu Hb Hrow Hown Hv row'.
  destruct (order_status_update_run u owner p pk row v s st Hu Hb Hrow Hown Hv)
    as (r & Hrun & Hr).
  exists r. split; [exact Hrun|].
  unfold OrderSerializer_to_representation in Hr. simpl in Hr.
  repeat (match type of Hr with
          | context [?x ≫= _] => destruct x; simpl in Hr; [|discriminate]
          end).
  injection Hr as <-. done.
Qed.

(** X5: an update of an existing order by a caller who is neither staff nor
    the business owning the order's offer is refused (403) whatever the body,
    and nothing is written. *)
Theorem order_update_is_for_the_owning_business (u : User) (pk : Z)
    (row : Order.t) (partial : bool) (mth : Method)
    (data : gmap string JSON) (st : Store) :
  mth = PATCH ∨ mth = PUT →
  is_staff u = false → is_superuser u = false →
  Order_objects st !! pk = Some row →
  (∀ owner p, userprofile u = Some (owner, p) →
     UserProfile.type p = "business" →
     ∃ o, get_business_user st row = Some o ∧ o ≠ owner) →
  OrderDetailView.update int_field choice_field partial
    (mkRequest mth (Authenticated u)) pk data st
  = (st, Raise forbidden).
Proof.
  intros Hm Hs Hsu Hrow Hnot.
  unfold OrderDetailView.update.
  bind_return; [|apply order_view_admits_authenticated].
  bind_raise; [reflexivity|].
  rewrite (order_get_object_denied _ _ row); [reflexivity|done|].
  run_perm. simpl. rewrite Hs, Hsu. simpl.
  assert (is_safe mth = false) as -> by (by destruct Hm as [-> | ->]).
  destruct (decide (mth = DELETE)) as [->|_]; [by destruct Hm|].
  destruct (decide (mth = PATCH ∨ mth = PUT)); [|done].
  destruct (userprofile u) as [[owner p]|] eqn:Hu; [|reflexivity].
  destruct (decide (UserProfile.type p ≠ "business")) as [|Hb];
    [reflexivity|].
  apply dec_stable in Hb.
  destruct (Hnot owner p eq_refl Hb) as (o1 & Ho & Hne).
  run. rewrite Ho. simpl. rewrite bool_decide_eq_false_2 by done.
  reflexivity.
Qed.
Lemma size_filter_replace {A} (P : Z * A → Prop)
    `{!∀ x, Decision (P x)} (m : gmap Z A) (k : Z) (x y : A) :
  m !! k = Some x →
  (size (filter P (<[k := y]> m)) + (if decide (P (k, x)) then 1 else 0)
   = size (filter P m) + (if decide (P (k, y)) then 1 else 0))%nat.
Proof.
  intros Hk. rewrite map_filter_insert.
  destruct (decide (P (k, y))) as [Hy|Hy]; destruct (decide (P (k, x))) as [Hx|Hx].
  - rewrite map_size_insert_Some; [lia|].
    exists x. by apply map_lookup_filter_Some.
  - rewrite map_size_insert_None; [lia|].
    apply map_lookup_filter_None. right. intros z Hz. congruence.
  - rewrite map_filter_delete, map_size_delete_Some.
    + assert (size (filter P m) ≠ 0)%nat; [|lia].
      intros H0. apply map_size_empty_iff in H0.
      assert (filter P m !! k = Some x) as H1
        by (by apply map_lookup_filter_Some).
      rewrite H0, lookup_empty in H1. discriminate.
    + exists x. by apply map_lookup_filter_Some.
  - rewrite map_filter_delete, delete_id; [lia|].
    apply map_lookup_filter_None. right. intros z Hz. congruence.
Qed.

(** X8: when the owning business changes the status of an order, the count
    of its orders in the old status drops by one, the count in the new status
    grows by one, and the count of the third status stays. *)
Theorem completing_an_order_moves_it_between_counts (u : User) (owner : Z)
    (p : UserProfile.t) (pk : Z) (row : Order.t) (v : JSON) (s : OrderStatus)
    (st : Store) :
  userprofile u = Some (owner, p) →
  UserProfile.type p = "business" →
  Order_objects st !! pk = Some row →
  get_business_user st row = Some owner →
  choice_field v = Some s →
  Order.status row ≠ s →
  let st' := (OrderDetailView.update int_field choice_field true
                (mkRequest PATCH (Authenticated u)) pk {[ "status" := v ]}
                st).1 in
  count_orders (Order.status row) owner st'
    = count_orders (Order.status row) owner st - 1
  ∧ count_orders s owner st' = count_orders s owner st + 1
  ∧ ∀ s', s' ≠ s → s' ≠ Order.status row →
      count_orders s' owner st' = count_orders s' owner st.
Proof.
  intros Hu Hb Hrow Hown Hv Hne st'.
  destruct (order_status_update_run u owner p pk row v s st Hu Hb Hrow Hown Hv)
    as (r & Hrun & _).
  subst st'. rewrite Hrun. simpl.
  set (row' := Order.mk (Order.customer_user row) (Order.offer_detail row) s).
  assert (Hcount : ∀ s0,
    (size (filter (λ kv : Z * Order.t,
             get_business_user st kv.2 = Some owner ∧ Order.status kv.2 = s0)
           (<[pk := row']> (Order_objects st)))
     + (if decide (Order.status row = s0) then 1 else 0)
     = size (filter (λ kv : Z * Order.t,
             get_business_user st kv.2 = Some owner ∧ Order.status kv.2 = s0)
           (Order_objects st))
       + (if decide (s = s0) then 1 else 0))%nat).
  { intros s0.
    pose proof (size_filter_replace
      (λ kv : Z * Order.t,
         get_business_user st kv.2 = Some owner ∧ Order.status kv.2 = s0)
      (Order_objects st) pk row row' Hrow) as H.
    simpl in H.
    assert (Hown' : get_business_user st row' = Some owner) by exact Hown.
    destruct (decide (get_business_user st row = Some owner
                      ∧ Order.status row = s0)) as [[_ H1]|H1];
    destruct (decide (get_business_user st row' = Some owner ∧ s = s0))
      as [[_ H2]|H2];
    destruct (decide (Order.status row = s0)) as [H3|H3];
    destruct (decide (s = s0)) as [H4|H4];
    try lia; try tauto. }
  unfold count_orders.
  change (get_business_user (with_Order_objects (insert pk row') st))
    with (get_business_user st).
  simpl.
  split; [|split].
  - specialize (Hcount (Order.status row)).
    destruct (decide (Order.status row = Order.status row)); [|done].
    destruct (decide (s = Order.status row)); [congruence|]. lia.
  - specialize (Hcount s).
    destruct (decide (Order.status row = s)); [done|].
    destruct (decide (s = s)); [|done]. lia.
  - intros s' H1 H2. specialize (Hcount s').
    destruct (decide (Order.status row = s')); [congruence|].
    destruct (decide (s = s')); [congruence|]. lia.
Qed.
End OrderUpdate.

(** ** Order counts *)

Lemma size_filter_by_status (Q : Order.t → Prop) `{!∀ x, Decision (Q x)}
    (m : gmap Z Order.t) :
  (size (filter (λ kv : Z * Order.t, Q kv.2) m)
   = size (filter (λ kv : Z * Order.t,
                     Q kv.2 ∧ Order.status kv.2 = IN_PROGRESS) m)
     + size (filter (λ kv : Z * Order.t,
                       Q kv.2 ∧ Order.status kv.2 = COMPLETED) m)
     + size (filter (λ kv : Z * Order.t,
                       Q kv.2 ∧ Order.status kv.2 = CANCELLED) m))%nat.
Proof.
  induction m as [|k x m Hk _ IH] using map_first_key_ind.
  - rewrite !map_filter_empty, map_size_empty. reflexivity.
  - assert (Hins : ∀ (P : Z * Order.t → Prop) `{!∀ y, Decision (P y)},
              size (filter P (<[k := x]> m))
              = ((if decide (P (k, x)) then 1 else 0) + size (filter P m))%nat).
    { intros P HP. rewrite map_filter_insert.
      destruct (decide (P (k, x))).
      - rewrite map_size_insert_None; [lia|].
        apply map_lookup_filter_None. by left.
      - rewrite delete_id by done. lia. }
    rewrite !Hins, IH. simpl.
    destruct (decide (Q x)) as [Hq|Hq].
    + destruct x as [c d []]; simpl in *;
        repeat (match goal with
                | |- context [decide ?P] => destruct (decide P)
                end; try (exfalso; intuition congruence)); lia.
    + repeat (match goal with
              | |- context [decide ?P] => destruct (decide P)
              end; try tauto); lia.
Qed.

(** X6: for a business profile both count views succeed, and the number of
    in-progress orders, of completed orders and of cancelled orders add up to
    the length of the order list that business sees. *)
Theorem order_counts_add_up_to_the_business_list (u u' : User) (b : Z)
    (p : UserProfile.t) (st : Store) :
  UserProfile_objects st !! b = Some p →
  UserProfile.type p = "business" →
  userprofile u' = Some (b, p) →
  let request := mkRequest GET (Authenticated u) in
  ∃ c1 c2 l,
    OrderCountForBusinessView.get request b st = (st, Return c1)
    ∧ CompletedOrderCountForBusinessView.get request b st = (st, Return c2)
    ∧ OrderListCreateView.get_queryset (mkRequest GET (Authenticated u')) st
      = (st, Return l)
    ∧ 0 ≤ c1 ∧ 0 ≤ c2
    ∧ c1 + c2 + count_orders CANCELLED b st = Z.of_nat (length l).
Proof.
  intros Hp Hb Hu' request.
  exists (count_orders IN_PROGRESS b st), (count_orders COMPLETED b st).
  exists (map_to_list
            (filter (λ kv : Z * Order.t, get_business_user st kv.2 = Some b)
                    (Order_objects st))).
  split; [|split; [|split]].
  - unfold OrderCountForBusinessView.get, order_count_view. run.
    rewrite Hp. simpl. destruct (decide _); [reflexivity|done].
  - unfold CompletedOrderCountForBusinessView.get, order_count_view. run.
    rewrite Hp. simpl. destruct (decide _); [reflexivity|done].
  - unfold OrderListCreateView.get_queryset. simpl. rewrite Hu'.
    destruct (decide (UserProfile.type p = "customer")) as [Hc|_];
      [rewrite Hb in Hc; discriminate|].
    destruct (decide (UserProfile.type p = "business")); [|done].
    reflexivity.
  - unfold count_orders. split; [lia|]. split; [lia|].
    rewrite length_map_to_list.
    pose proof (size_filter_by_status
                  (λ o, get_business_user st o = Some b) (Order_objects st))
      as H.
    simpl in H. lia.
Qed.

(** X7: a count view answers not-found exactly when no business-typed
    profile has the given id (a customer profile's id is not found either),
    and answers the count otherwise; it never writes. *)
Theorem order_count_needs_a_business_profile (u : User) (status : OrderStatus)
    (b : Z) (st : Store) :
  let res := order_count_view status (mkRequest GET (Authenticated u)) b st in
  res.1 = st
  ∧ (res.2 = Raise (NotFound "This id does not exist")
     ↔ ¬ ∃ p, UserProfile_objects st !! b = Some p
              ∧ UserProfile.type p = "business")
  ∧ (res.2 = Return (count_orders status b st)
     ↔ ∃ p, UserProfile_objects st !! b = Some p
            ∧ UserProfile.type p = "business").
Proof.
  unfold order_count_view. run.
  destruct (UserProfile_objects st !! b) as [p|]; simpl.
  - destruct (decide (UserProfile.type p = "business")) as [Hb|Hb]; simpl.
    + split; [done|]. split.
      * split; [discriminate|]. intros H. exfalso. apply H. eauto.
      * split; [eauto|done].
    + split; [done|]. split.
      * split; [|done]. intros _ (q & [= <-] & ?). done.
      * split; [discriminate|]. intros (q & [= <-] & ?). done.
  - split; [done|]. split.
    + split; [|done]. intros _ (q & ? & ?). discriminate.
    + split; [discriminate|]. intros (q & ? & ?). discriminate.
Qed.

(** ** Offers: who may write *)

(** X9: an offer-create request of a caller without a business profile is
    refused before the body is looked at, 401 without a valid token and 403
    otherwise, and nothing is written. *)
Theorem offer_create_needs_a_business_profile (ru : RequestUser)
    (data : OfferData.t) (st : Store) :
  (∀ pk p, getattr_userprofile ru = Some (pk, p) →
           UserProfile.type p ≠ "business") →
  OfferListCreateView.post (mkRequest POST ru) data st
  = (st, Raise (if is_authenticated ru then forbidden else NotAuthenticated)).
Proof.
  intros Hnot. unfold OfferListCreateView.post.
  bind_raise; [reflexivity|].
  unfold check_permissions, PublicReadBusinessWrite.has_permission. simpl.
  destruct ru as [|u]; [reflexivity|]. simpl in *.
  destruct (userprofile u) as [[pk p]|]; [|reflexivity].
  rewrite bool_decide_eq_false_2 by (by eapply Hnot). reflexivity.
Qed.

(** X10: an update of an existing offer by anyone but the profile that owns
    it is refused, 401 without a valid token and 403 otherwise, whatever the
    body, and nothing is written. *)
Theorem offer_update_is_for_the_owner (partial : bool) (mth : Method)
    (ru : RequestUser) (pk : Z) (row : Offer.t) (data : OfferData.t)
    (st : Store) :
  mth = PUT ∨ mth = PATCH →
  Offer_objects st !! pk = Some row →
  (∀ q p, getattr_userprofile ru = Some (q, p) → q ≠ Offer.user_profile row) →
  OfferDetailView.update partial (mkRequest mth ru) pk data st
  = (st, Raise (if is_authenticated ru then forbidden else NotAuthenticated)).
Proof.
  intros Hm Hrow Hnot. unfold OfferDetailView.update.
  destruct ru as [|u]; [reflexivity|].
  bind_return; [|reflexivity].
  bind_raise; [reflexivity|].
  unfold get_object.
  bind_return; [|unfold gets; rewrite Hrow; reflexivity].
  bind_raise; [reflexivity|].
  unfold check_object_permissions, OfferDetailView.has_object_permission,
    IsAuthenticatedForReadAndBusinessOwnerForWrite.has_object_permission.
  simpl in *.
  assert (is_safe mth = false) as -> by (by destruct Hm as [-> | ->]).
  destruct (userprofile u) as [[q p]|]; [|reflexivity].
  rewrite bool_decide_eq_false_2 by (by eapply Hnot). reflexivity.
Qed.

(** X11: a PATCH of the owner that carries a title and no details changes
    the title of that offer and nothing else: description, details, orders and
    reviews are as before, and the answer lists the unchanged details. *)
Theorem offer_update_without_details_leaves_details (u : User)
    (p : UserProfile.t) (pk : Z) (row : Offer.t) (title : string)
    (st : Store) :
  Offer_objects st !! pk = Some row →
  userprofile u = Some (Offer.user_profile row, p) →
  let res := OfferDetailView.update true (mkRequest PATCH (Authenticated u)) pk
               (OfferData.mk (Some title) None None) st in
  (∃ repr, res.2 = Return repr
           ∧ OfferRepr.title repr = title
           ∧ OfferRepr.description repr = Offer.description row
           ∧ OfferRepr.details repr
             = OfferDetailSerializer_to_representation <$> details_of pk st)
  ∧ Offer_objects res.1
    = <[pk := Offer.mk (Offer.user_profile row) title (Offer.description row)]>
        (Offer_objects st)
  ∧ OfferDetail_objects res.1 = OfferDetail_objects st
  ∧ Order_objects res.1 = Order_objects st
  ∧ Review_objects res.1 = Review_objects st.
Proof.
  intros Hrow Hu res. subst res.
  rewrite (offer_update_run true PATCH u p pk row _ st);
    [|by right|done|done|reflexivity].
  simpl. split; [|done].
  eexists. split; [reflexivity|]. done.
Qed.

(** X12: an update of the owner saves the offer's own attributes before its
    details are processed: whether the update then succeeds or raises, the
    offer row holds the submitted attributes, and profiles, orders and reviews
    are untouched. *)
Theorem offer_update_saves_the_offer_before_its_details (partial : bool)
    (mth : Method) (u : User) (p : UserProfile.t) (pk : Z) (row : Offer.t)
    (data : OfferData.t) (st : Store) :
  mth = PUT ∨ mth = PATCH →
  Offer_objects st !! pk = Some row →
  userprofile u = Some (Offer.user_profile row, p) →
  OfferCreateSerializer_is_valid partial data st = (st, Return data) →
  let res := OfferDetailView.update partial (mkRequest mth (Authenticated u))
               pk data st in
  Offer_objects res.1 = <[pk := setattrs_Offer data row]> (Offer_objects st)
  ∧ UserProfile_objects res.1 = UserProfile_objects st
  ∧ Order_objects res.1 = Order_objects st
  ∧ Review_objects res.1 = Review_objects st.
Proof.
  intros Hm Hrow Hu Hvalid res. subst res.
  rewrite (offer_update_run partial mth u p pk row data st) by done.
  destruct (OfferData.details data) as [ds|]; [|done].
  pose proof (update_details_keeps_other_tables pk ds
                (by_offer_type (details_of pk st))
                (with_Offer_objects (insert pk (setattrs_Offer data row)) st))
    as H.
  destruct (update_details pk _ ds _) as [st' [[]|e]]; simpl in *;
    destruct H as (H1 & H2 & H3 & H4); done.
Qed.

(** ** Minimum price, minimum delivery time and the offer filter *)

Lemma min_or_None_spec (xs : list Z) :
  match min_or_None xs with
  | None => xs = []
  | Some m => m ∈ xs ∧ ∀ x, x ∈ xs → m ≤ x
  end.
Proof.
  destruct xs as [|x xs]; [done|]. simpl.
  induction xs as [|y ys IH]; simpl.
  - split; [left|]. intros z Hz. apply list_elem_of_singleton in Hz. lia.
  - destruct IH as [Hin Hle].
    destruct (Z.min_spec y (foldr Z.min x ys)) as [[Hlt ->]|[Hge ->]].
    + split; [right; left|].
      intros z Hz. apply elem_of_cons in Hz as [->|Hz].
      * pose proof (Hle x ltac:(left)). lia.
      * apply elem_of_cons in Hz as [->|Hz]; [lia|].
        pose proof (Hle z ltac:(by right)). lia.
    + split.
      * apply elem_of_cons in Hin as [->|Hin]; [left|by do 2 right].
      * intros z Hz. apply elem_of_cons in Hz as [->|Hz]; [by apply Hle; left|].
        apply elem_of_cons in Hz as [->|Hz]; [lia|].
        apply Hle. by right.
Qed.

Lemma detail_minima_spec (st : Store) (obj : Z * Offer.t) :
  match get_min_price st obj with
  | None => details_of obj.1 st = []
  | Some m =>
      (∃ d, d ∈ details_of obj.1 st ∧ OfferDetail.price d.2 = m)
      ∧ ∀ d, d ∈ details_of obj.1 st → m ≤ OfferDetail.price d.2
  end
  ∧ match get_min_delivery_time st obj with
    | None => details_of obj.1 st = []
    | Some m =>
        (∃ d, d ∈ details_of obj.1 st
              ∧ OfferDetail.delivery_time_in_days d.2 = m)
        ∧ ∀ d, d ∈ details_of obj.1 st
               → m ≤ OfferDetail.delivery_time_in_days d.2
    end.
Proof.
  unfold get_min_price, get_min_delivery_time. split.
  - pose proof (min_or_None_spec
      ((λ d : Z * OfferDetail.t, OfferDetail.price d.2) <$> details_of obj.1 st))
      as H.
    destruct (min_or_None _) as [m|].
    + destruct H as [Hin Hle]. split.
      * apply list_elem_of_fmap in Hin as (d & -> & Hd). eauto.
      * intros d Hd. apply Hle. apply list_elem_of_fmap. eauto.
    + by apply fmap_nil_inv in H.
  - pose proof (min_or_None_spec
      ((λ d : Z * OfferDetail.t, OfferDetail.delivery_time_in_days d.2)
       <$> details_of obj.1 st)) as H.
    destruct (min_or_None _) as [m|].
    + destruct H as [Hin Hle]. split.
      * apply list_elem_of_fmap in Hin as (d & -> & Hd). eauto.
      * intros d Hd. apply Hle. apply list_elem_of_fmap. eauto.
    + by apply fmap_nil_inv in H.
Qed.

(** X13: the minimum price of an offer is null exactly when the offer has no
    detail; otherwise it is the price of one of its details and no detail is
    cheaper.  The same holds for the minimum delivery time. *)
Theorem min_price_is_the_least_detail_price (st : Store) (obj : Z * Offer.t) :
  match get_min_price st obj with
  | None => details_of obj.1 st = []
  | Some m =>
      (∃ d, d ∈ details_of obj.1 st ∧ OfferDetail.price d.2 = m)
      ∧ ∀ d, d ∈ details_of obj.1 st → m ≤ OfferDetail.price d.2
  end
  ∧ match get_min_delivery_time st obj with
    | None => details_of obj.1 st = []
    | Some m =>
        (∃ d, d ∈ details_of obj.1 st
              ∧ OfferDetail.delivery_time_in_days d.2 = m)
        ∧ ∀ d, d ∈ details_of obj.1 st
               → m ≤ OfferDetail.delivery_time_in_days d.2
    end.
Proof. exact (detail_minima_spec st obj). Qed.

Lemma elem_of_get_queryset (st : Store) (o : AnnotatedOffer.t) :
  o ∈ OfferListCreateView_get_queryset st ↔
  Offer_objects st !! AnnotatedOffer.pk o = Some (AnnotatedOffer.row o)
  ∧ AnnotatedOffer.min_price o
    = get_min_price st (AnnotatedOffer.pk o, AnnotatedOffer.row o)
  ∧ AnnotatedOffer.min_delivery_time o
    = get_min_delivery_time st (AnnotatedOffer.pk o, AnnotatedOffer.row o).
Proof.
  unfold OfferListCreateView_get_queryset. rewrite list_elem_of_fmap. split.
  - intros ([k r] & -> & H). apply elem_of_map_to_list in H. simpl. done.
  - intros (H1 & H2 & H3). exists (AnnotatedOffer.pk o, AnnotatedOffer.row o).
    split; [|by apply elem_of_map_to_list].
    destruct o; simpl in *. by subst.
Qed.

(** X14: an offer passes the filter exactly when it is in the queryset and
    meets every given parameter: its owner is [creator_id], one of its details
    delivers within [max_delivery_time] days, and it has details none of which
    costs less than [min_price].  An offer without details passes neither
    numeric filter. *)
Theorem offer_filter_meaning (p : OfferFilter.params) (st : Store)
    (o : AnnotatedOffer.t) :
  let details := details_of (AnnotatedOffer.pk o) st in
  o ∈ OfferFilter.filter_queryset p (OfferListCreateView_get_queryset st) ↔
  o ∈ OfferListCreateView_get_queryset st
  ∧ (∀ c, OfferFilter.creator_id p = Some c →
          Offer.user_profile (AnnotatedOffer.row o) = c)
  ∧ (∀ v, OfferFilter.max_delivery_time p = Some v →
          ∃ d, d ∈ details ∧ OfferDetail.delivery_time_in_days d.2 ≤ v)
  ∧ (∀ v, OfferFilter.min_price p = Some v →
          details ≠ [] ∧ ∀ d, d ∈ details → v ≤ OfferDetail.price d.2).
Proof.
  intros details. unfold OfferFilter.filter_queryset.
  destruct p as [c mdt mp]. simpl.
  assert (Hq : o ∈ OfferListCreateView_get_queryset st →
    (∀ v, OfferFilter.lte (AnnotatedOffer.min_delivery_time o) v ↔
          ∃ d, d ∈ details ∧ OfferDetail.delivery_time_in_days d.2 ≤ v)
    ∧ (∀ v, OfferFilter.gte (AnnotatedOffer.min_price o) v ↔
          details ≠ [] ∧ ∀ d, d ∈ details → v ≤ OfferDetail.price d.2)).
  { intros Ho. apply elem_of_get_queryset in Ho as (_ & Hp & Hd).
    pose proof (detail_minima_spec st
                  (AnnotatedOffer.pk o, AnnotatedOffer.row o)) as [M1 M2].
    rewrite <- Hp in M1. rewrite <- Hd in M2. simpl in M1, M2.
    fold details in M1, M2. split; intros v.
    - unfold OfferFilter.lte.
      destruct (AnnotatedOffer.min_delivery_time o) as [t|].
      + destruct M2 as [(d & Hin & Heq) Hle]. split.
        * intros Ht. exists d. split; [done|lia].
        * intros (d' & Hin' & Hle'). specialize (Hle d' Hin'). lia.
      + rewrite M2. split; [done|]. intros (d & Hin & _).
        by apply elem_of_nil in Hin.
    - unfold OfferFilter.gte.
      destruct (AnnotatedOffer.min_price o) as [x|].
      + destruct M1 as [(d & Hin & Heq) Hle]. split.
        * intros Hx. split.
          -- intros Hnil. rewrite Hnil in Hin. by apply elem_of_nil in Hin.
          -- intros d' Hin'. specialize (Hle d' Hin'). lia.
        * intros [_ Hall]. specialize (Hall d Hin). lia.
      + rewrite M1. split; [done|]. intros [Hne _]. done. }
  unfold OfferFilter.apply, OfferFilter.filter_min_price,
    OfferFilter.filter_max_delivery_time, OfferFilter.filter_creator_id.
  split.
  - intros H.
    assert (Ho : o ∈ OfferListCreateView_get_queryset st).
    { destruct mp, mdt, c;
        repeat (apply list_elem_of_filter in H as [_ H]); exact H. }
    destruct (Hq Ho) as [Hl Hg].
    split; [done|].
    destruct mp as [v1|], mdt as [v2|], c as [v3|];
      repeat (match type of H with
              | _ ∈ filter _ _ =>
                  let G := fresh "G" in apply list_elem_of_filter in H as [G H]
              end);
      (split; [|split]); intros ? [= <-]; try done;
      try (by apply Hl); try (by apply Hg).
  - intros (Ho & Hc & Hd & Hp). destruct (Hq Ho) as [Hl Hg].
    destruct mp as [v1|], mdt as [v2|], c as [v3|];
      repeat (apply list_elem_of_filter; split);
      try done; try (by apply Hc); try (by apply Hl, Hd);
      try (by apply Hg, Hp).
Qed.

(** ** The average rating stays within the ratings *)



(** ** A single detail *)

(** X16: a detail the store accepted is retrieved by any authenticated
    caller under its new id with exactly the attributes that were
    submitted. *)
Theorem created_detail_is_retrieved_as_submitted (u : User) (offer : Z)
    (d : DetailData.t) (obj : Z * OfferDetail.t) (st st' : Store) :
  OfferDetail_objects_create offer d st = (st', Return obj) →
  ∃ repr,
    OfferDetailDetailView.get (mkRequest GET (Authenticated u)) obj.1 st'
    = (st', Return repr)
    ∧ OfferDetailFull.id repr = obj.1
    ∧ DetailData.title d = Some (OfferDetailFull.title repr)
    ∧ DetailData.revisions d = Some (OfferDetailFull.revisions repr)
    ∧ DetailData.delivery_time_in_days d
      = Some (OfferDetailFull.delivery_time_in_days repr)
    ∧ DetailData.price d = Some (OfferDetailFull.price repr)
    ∧ DetailData.features d = Some (OfferDetailFull.features repr)
    ∧ DetailData.offer_type d = Some (OfferDetailFull.offer_type repr).
Proof.
  unfold OfferDetail_objects_create. intros H.
  destruct (OfferDetail_of_data offer d) as [row|] eqn:Hd; [|discriminate].
  destruct (tier_taken _ _ _); [discriminate|].
  injection H as <- <-. eexists. split.
  - unfold OfferDetailDetailView.get, get_object. run.
    rewrite lookup_insert_eq. reflexivity.
  - simpl. unfold OfferDetail_of_data in Hd.
    destruct d as [t r dt p f ty]; simpl in *.
    destruct t, r, dt, p, f, ty; simpl in Hd; try discriminate.
    injection Hd as <-. simpl. done.
Qed.



(** ** Creating an order: what the input can and cannot do *)

Section OrderPost.
Context {JSON : Type}.
Variable int_field : JSON → option Z.
Variable choice_field : JSON → option OrderStatus.

Lemma order_post_run (u : User) (data : gmap string JSON) (vd : OrderData.t)
    (st : Store) :
  OrderSerializer_to_internal_value int_field choice_field data st
    = (st, Return vd) →
  OrderListCreateView.post int_field choice_field
    (mkRequest POST (Authenticated u)) data st
  = (order ← OrderSerializer_create (mkRequest POST (Authenticated u)) vd;
     OrderListCreateView.serialize order) st.
Proof.
  intros Hv. unfold OrderListCreateView.post.
  bind_return; [|reflexivity].
  bind_return; [|exact Hv]. reflexivity.
Qed.

(** X17: an authenticated account without a profile that posts a valid
    order gets a validation error (400) whether or not the detail exists,
    while its order list is refused with 403; neither writes. *)
Theorem order_create_without_profile_is_a_validation_error (u : User)
    (data : gmap string JSON) (vd : OrderData.t) (st : Store) :
  userprofile u = None →
  OrderSerializer_to_internal_value int_field choice_field data st
    = (st, Return vd) →
  OrderListCreateView.post int_field choice_field
    (mkRequest POST (Authenticated u)) data st
  = (st, Raise (ValidationError "User Profile does not exist."))
  ∧ OrderListCreateView.get (mkRequest GET (Authenticated u)) st
    = (st, Raise (PermissionDenied "User profile not found.")).
Proof.
  intros Hu Hv. split.
  - rewrite (order_post_run u data vd st Hv).
    bind_raise; [reflexivity|].
    unfold OrderSerializer_create. simpl. rewrite Hu. reflexivity.
  - unfold OrderListCreateView.get.
    bind_return; [|reflexivity].
    bind_raise; [reflexivity|].
    unfold OrderListCreateView.get_queryset. simpl. rewrite Hu. reflexivity.
Qed.

(** X18: an order body with a key outside the serializer's fields is
    rejected with a validation error on create and on update, whatever else it
    carries, and nothing is written. *)
Theorem order_input_with_an_undeclared_field_is_rejected (u : User)
    (partial : bool) (data : gmap string JSON) (k : string) (st : Store) :
  is_Some (data !! k) →
  k ∉ OrderSerializer_fields →
  OrderListCreateView.post int_field choice_field
    (mkRequest POST (Authenticated u)) data st
  = (st, Raise (ValidationError "Unexpected fields"))
  ∧ OrderSerializer_to_internal_value_on_update int_field choice_field
      partial data st
    = (st, Raise (ValidationError "Unexpected fields")).
Proof.
  intros Hk Hnot.
  assert (Hne : unexpected_fields OrderSerializer_fields data ≠ ∅).
  { intros He. assert (k ∈ unexpected_fields OrderSerializer_fields data).
    { unfold unexpected_fields. apply elem_of_difference. split.
      - by apply elem_of_dom.
      - by rewrite elem_of_list_to_set. }
    rewrite He in H. by apply elem_of_empty in H. }
  split.
  - unfold OrderListCreateView.post.
    bind_return; [|reflexivity].
    bind_raise; [reflexivity|].
    unfold OrderSerializer_to_internal_value.
    destruct (decide _); [reflexivity|done].
  - unfold OrderSerializer_to_internal_value_on_update.
    destruct (decide _); [reflexivity|done].
Qed.

(** X19: among valid order-create bodies only [offer_detail_id] matters:
    two bodies naming the same detail have the same outcome and leave the same
    store, and a created order has the default status whatever [status] was
    submitted. *)
Theorem order_create_depends_on_the_detail_id_only (u : User)
    (data1 data2 : gmap string JSON) (vd1 vd2 : OrderData.t) (st : Store) :
  OrderSerializer_to_internal_value int_field choice_field data1 st
    = (st, Return vd1) →
  OrderSerializer_to_internal_value int_field choice_field data2 st
    = (st, Return vd2) →
  OrderData.offer_detail_id vd1 = OrderData.offer_detail_id vd2 →
  OrderListCreateView.post int_field choice_field
    (mkRequest POST (Authenticated u)) data1 st
  = OrderListCreateView.post int_field choice_field
      (mkRequest POST (Authenticated u)) data2 st
  ∧ match (OrderListCreateView.post int_field choice_field
             (mkRequest POST (Authenticated u)) data1 st).2 with
    | Return r => OrderRepr.status r = Order_status_default
    | Raise _ => True
    end.
Proof.
  intros H1 H2 Hid.
  rewrite (order_post_run u data1 vd1 st H1), (order_post_run u data2 vd2 st H2).
  assert (Hc : OrderSerializer_create (mkRequest POST (Authenticated u)) vd1
               = OrderSerializer_create (mkRequest POST (Authenticated u)) vd2).
  { unfold OrderSerializer_create. by rewrite Hid. }
  rewrite Hc. split; [reflexivity|].
  unfold OrderSerializer_create. simpl.
  destruct (userprofile u) as [[c p]|]; [|done].
  run. unfold OfferDetail_objects_get.
  destruct (OfferDetail_objects st !! _) as [row|]; simpl; [|done].
  unfold OrderListCreateView.serialize. run.
  destruct (OrderSerializer_to_representation _ _) as [r|] eqn:Hr; [|done].
  simpl. unfold OrderSerializer_to_representation in Hr. simpl in Hr.
  repeat (match type of Hr with
          | context [?x ≫= _] => destruct x; simpl in Hr; [|discriminate]
          end).
  by injection Hr as <-.
Qed.
End OrderPost.

(** ** Reviews: who may write, and deleting *)

(** X20: a review-create request of a caller without a customer profile is
    refused before the body is looked at, 401 without a valid token and 403
    otherwise, and nothing is written. *)
Theorem review_create_needs_a_customer_profile (ru : RequestUser)
    (data : ReviewData.t) (st : Store) :
  (∀ pk p, getattr_userprofile ru = Some (pk, p) →
           UserProfile.type p ≠ "customer") →
  ReviewListCreateView.post (mkRequest POST ru) data st
  = (st, Raise (if is_authenticated ru then forbidden else NotAuthenticated)).
Proof.
  intros Hnot. unfold ReviewListCreateView.post.
  bind_raise; [reflexivity|].
  unfold check_permissions, ReviewListCreateView.has_permission,
    IsUserWithProfile.has_permission. simpl.
  destruct ru as [|u]; [reflexivity|]. simpl in *.
  destruct (userprofile u) as [[pk p]|]; [|reflexivity].
  rewrite bool_decide_eq_false_2 by (by eapply Hnot). reflexivity.
Qed.

Lemma review_destroy_run (u : User) (reviewer : Z) (p : UserProfile.t)
    (pk : Z) (x : Review.t) (st : Store) :
  userprofile u = Some (reviewer, p) →
  Review_objects st !! pk = Some x →
  ReviewDetailView.destroy (mkRequest DELETE (Authenticated u)) pk st
  = if decide (reviewer = Review.reviewer x)
    then (with_Review_objects (delete pk) st, Return tt)
    else (st, Raise forbidden).
Proof.
  intros Hu Hx. unfold ReviewDetailView.destroy, get_object. run.
  rewrite Hx. simpl.
  unfold ReviewDetailView.has_object_permission,
    IsReviewerSelf.has_object_permission. simpl. rewrite Hu.
  destruct (decide (reviewer = Review.reviewer x)).
  - rewrite bool_decide_eq_true_2 by done. reflexivity.
  - rewrite bool_decide_eq_false_2 by done. reflexivity.
Qed.

(** X21: deleting an existing review is for its reviewer only: without a
    token the answer is 401, for any other account 403, both without writing;
    for the reviewer the review row is removed and nothing else. *)
Theorem review_destroy_is_for_the_reviewer (ru : RequestUser) (pk : Z)
    (x : Review.t) (st : Store) :
  Review_objects st !! pk = Some x →
  ReviewDetailView.destroy (mkRequest DELETE ru) pk st
  = match ru with
    | AnonymousUser => (st, Raise NotAuthenticated)
    | Authenticated u =>
        match userprofile u with
        | Some (reviewer, _) =>
            if decide (reviewer = Review.reviewer x)
            then (with_Review_objects (delete pk) st, Return tt)
            else (st, Raise forbidden)
        | None => (st, Raise forbidden)
        end
    end.
Proof.
  intros Hx. destruct ru as [|u]; [reflexivity|].
  destruct (userprofile u) as [[reviewer p]|] eqn:Hu.
  - by eapply review_destroy_run.
  - unfold ReviewDetailView.destroy, get_object. run.
    rewrite Hx. simpl.
    unfold ReviewDetailView.has_object_permission,
      IsReviewerSelf.has_object_permission. simpl. rewrite Hu. reflexivity.
Qed.

(** X22: a customer who has reviewed a business cannot review it again, but
    after deleting that review the same create succeeds, for a body that is
    valid (the reviewed profile exists and is a business, the rating is from
    1 to 5): the new review is theirs, for that business, with the submitted
    rating, and the store again has at most one review per pair. *)
Theorem review_can_be_written_again_after_deleting (u : User) (reviewer : Z)
    (p : UserProfile.t) (pk : Z) (x : Review.t) (business : UserProfile.t)
    (data : ReviewData.t) (st : Store) :
  userprofile u = Some (reviewer, p) →
  UserProfile.type p = "customer" →
  one_review_per_pair st →
  Review_objects st !! pk = Some x →
  Review.reviewer x = reviewer →
  ReviewData.business_user data = Review.business_user x →
  UserProfile_objects st !! Review.business_user x = Some business →
  UserProfile.type business = "business" →
  1 ≤ ReviewData.rating data ≤ 5 →
  let post := ReviewListCreateView.post (mkRequest POST (Authenticated u)) data in
  let st1 := (ReviewDetailView.destroy
                (mkRequest DELETE (Authenticated u)) pk st).1 in
  post st = (st, Raise already_reviewed)
  ∧ Review_objects st1 = delete pk (Review_objects st)
  ∧ ∃ obj, (post st1).2 = Return obj
           ∧ Review.reviewer obj.2 = reviewer
           ∧ Review.business_user obj.2 = Review.business_user x
           ∧ Review.rating obj.2 = ReviewData.rating data
           ∧ Review_objects (post st1).1 !! obj.1 = Some obj.2
           ∧ one_review_per_pair (post st1).1.
Proof.
  intros Hu Hc Hinv Hx Hrev Hbus Hprof Hbt Hrating post st1.
  assert (Hpost : ∀ s, UserProfile_objects s = UserProfile_objects st →
            post s
            = ReviewSerializer_create (mkRequest POST (Authenticated u)) data s).
  { intros s Hs. unfold post, ReviewListCreateView.post.
    bind_return.
    2:{ unfold check_permissions, ReviewListCreateView.has_permission,
          IsUserWithProfile.has_permission. simpl. rewrite Hu.
        by rewrite bool_decide_eq_true_2. }
    bind_return; [reflexivity|].
    unfold ReviewSerializer_is_valid. run. rewrite Hs, Hbus, Hprof.
    rewrite !bool_decide_eq_true_2 by done. reflexivity. }
  assert (Hst1 : st1 = with_Review_objects (delete pk) st).
  { unfold st1. rewrite (review_destroy_run u reviewer p pk x st Hu Hx).
    destruct (decide (reviewer = Review.reviewer x)); [reflexivity|].
    congruence. }
  assert (Hprofiles : UserProfile_objects st1 = UserProfile_objects st)
    by (by rewrite Hst1).
  split; [|split].
  - rewrite Hpost by done. eapply review_create_dup; [done|].
    apply Review_exists_true. exists pk, x. by rewrite Hbus.
  - by rewrite Hst1.
  - assert (Hfree : Review_exists (ReviewData.business_user data) reviewer st1
                    = false).
    { apply not_true_iff_false. rewrite Review_exists_true.
      intros (k & y & Hk & Hb & Hr). rewrite Hst1 in Hk. simpl in Hk.
      destruct (decide (k = pk)) as [->|Hne].
      - by rewrite lookup_delete_eq in Hk.
      - rewrite lookup_delete_ne in Hk by done.
        apply Hne. eapply Hinv; eauto; congruence. }
    rewrite !Hpost by done.
    rewrite (review_create_new u reviewer p data st1 Hu Hfree).
    unfold Review_objects_create. simpl.
    eexists. split; [reflexivity|]. simpl.
    split; [done|]. split; [done|]. split; [done|].
    split; [apply lookup_insert_eq|].
    unfold one_review_per_pair. simpl.
    intros i j a b Hi Hj Hab Hab'.
    assert (Hnone : ∀ k z, Review_objects st1 !! k = Some z →
              Review.business_user z = ReviewData.business_user data →
              Review.reviewer z ≠ reviewer).
    { intros k z Hk Hz Hr.
      assert (Review_exists (ReviewData.business_user data) reviewer st1 = true)
        by (apply Review_exists_true; eauto).
      congruence. }
    assert (Hinv1 : one_review_per_pair st1).
    { intros i' j' a' b' Hi' Hj'. rewrite Hst1 in Hi', Hj'. simpl in Hi', Hj'.
      apply lookup_delete_Some in Hi' as [_ Hi'].
      apply lookup_delete_Some in Hj' as [_ Hj']. by eapply Hinv. }
    destruct (decide (i = next_id (Review_objects st1))) as [->|Hi'];
      destruct (decide (j = next_id (Review_objects st1))) as [->|Hj'];
      [done| | |].
    + rewrite lookup_insert_eq in Hi. rewrite lookup_insert_ne in Hj by done.
      injection Hi as <-. simpl in *. exfalso. eapply Hnone; eauto.
    + rewrite lookup_insert_eq in Hj. rewrite lookup_insert_ne in Hi by done.
      injection Hj as <-. simpl in *. exfalso. eapply Hnone; eauto.
    + rewrite lookup_insert_ne in Hi, Hj by done. by eapply Hinv1.
Qed.


(** * The further properties on the sample marketplace *)

Lemma one_review_per_pair_from_list (st : Store) :
  NoDup ((λ kv : Z * Review.t,
            (Review.business_user kv.2, Review.reviewer kv.2))
         <$> map_to_list (Review_objects st)) →
  one_review_per_pair st.
Proof.
  intros Hnd i j x y H1 H2 Hb Hr.
  apply elem_of_map_to_list in H1, H2.
  apply list_elem_of_lookup in H1 as [n Hn], H2 as [m Hm].
  assert (n = m).
  { eapply NoDup_lookup; [exact Hnd| |].
    - rewrite list_lookup_fmap, Hn. reflexivity.
    - rewrite list_lookup_fmap, Hm. simpl. by rewrite Hb, Hr. }
  subst m. rewrite Hn in Hm. by injection Hm.
Qed.

Lemma scenario_one_review_per_pair : one_review_per_pair Scenario.store.
Proof.
  apply one_review_per_pair_from_list. apply (bool_decide_unpack _).
  vm_compute. exact I.
Qed.

Lemma order_destroy_is_for_staff_only_witness :
  Order_objects Scenario.store !! 1 = Some Scenario.order
  ∧ OrderDetailView.destroy
      (mkRequest DELETE (Authenticated Sample.user_customer)) 1 Scenario.store
    = (Scenario.store, Raise forbidden)
  ∧ OrderDetailView.destroy
      (mkRequest DELETE (Authenticated Scenario.user_staff)) 1 Scenario.store
    = (with_Order_objects (delete 1) Scenario.store, Return tt).
Proof.
  split; [vm_compute; reflexivity|]. split.
  - refine (order_destroy_is_for_staff_only Sample.user_customer 1
              Scenario.order Scenario.store _).
    vm_compute. reflexivity.
  - refine (order_destroy_is_for_staff_only Scenario.user_staff 1
              Scenario.order Scenario.store _).
    vm_compute. reflexivity.
Defined.

Lemma order_read_permission_agrees_with_list_witness :
  Order_objects Scenario.store !! 1 = Some Scenario.order
  ∧ match (OrderListCreateView.get_queryset
             (mkRequest GET (Authenticated Sample.user_customer))
             Scenario.store).2 with
    | Return l =>
        (OrderDetailView.has_object_permission
           (mkRequest GET (Authenticated Sample.user_customer))
           (1, Scenario.order) Scenario.store).2 = Return true
        ↔ (1, Scenario.order) ∈ l
    | Raise _ =>
        (OrderDetailView.has_object_permission
           (mkRequest GET (Authenticated Sample.user_customer))
           (1, Scenario.order) Scenario.store).2 = Return false
    end.
Proof.
  split; [vm_compute; reflexivity|].
  refine (order_read_permission_agrees_with_list Sample.user_customer 1
            Scenario.order Scenario.store _ _ _).
  - reflexivity.
  - reflexivity.
  - vm_compute. reflexivity.
Defined.

Lemma order_status_can_be_set_to_any_value_witness :
  Order_objects Scenario.store !! 1 = Some Scenario.order
  ∧ get_business_user Scenario.store Scenario.order = Some 1
  ∧ ∃ repr,
      OrderDetailView.update Sample.int_field Scenario.status_field true
        (mkRequest PATCH (Authenticated Sample.user_business)) 1
        {[ "status" := 2 ]} Scenario.store
      = (with_Order_objects (insert 1 (Order.mk 2 1 COMPLETED)) Scenario.store,
         Return repr)
      ∧ OrderRepr.status repr = COMPLETED
      ∧ OrderRepr.id repr = 1.
Proof.
  split; [vm_compute; reflexivity|]. split; [vm_compute; reflexivity|].
  refine (order_status_can_be_set_to_any_value Sample.int_field
            Scenario.status_field Sample.user_business 1
            Sample.profile_business.2 1 Scenario.order 2 COMPLETED
            Scenario.store _ _ _ _ _).
  - reflexivity.
  - reflexivity.
  - vm_compute. reflexivity.
  - vm_compute. reflexivity.
  - reflexivity.
Defined.

Lemma order_update_is_for_the_owning_business_witness :
  Order_objects Scenario.store !! 1 = Some Scenario.order
  ∧ OrderDetailView.update Sample.int_field Scenario.status_field true
      (mkRequest PATCH (Authenticated Sample.user_customer)) 1
      {[ "status" := 3 ]} Scenario.store
    = (Scenario.store, Raise forbidden).
Proof.
  split; [vm_compute; reflexivity|].
  refine (order_update_is_for_the_owning_business Sample.int_field
            Scenario.status_field Sample.user_customer 1 Scenario.order true
            PATCH {[ "status" := 3 ]} Scenario.store _ _ _ _ _).
  - left. reflexivity.
  - reflexivity.
  - reflexivity.
  - vm_compute. reflexivity.
  - intros owner p [= <- <-] Hb. discriminate Hb.
Defined.

Lemma completing_an_order_moves_it_between_counts_witness :
  Order.status Scenario.order ≠ COMPLETED
  ∧ count_orders IN_PROGRESS 1
      (OrderDetailView.update Sample.int_field Scenario.status_field true
         (mkRequest PATCH (Authenticated Sample.user_business)) 1
         {[ "status" := 2 ]} Scenario.store).1
    = count_orders IN_PROGRESS 1 Scenario.store - 1.
Proof.
  split; [discriminate|].
  refine (proj1 (completing_an_order_moves_it_between_counts Sample.int_field
            Scenario.status_field Sample.user_business 1
            Sample.profile_business.2 1 Scenario.order 2 COMPLETED
            Scenario.store _ _ _ _ _ _)).
  - reflexivity.
  - reflexivity.
  - vm_compute. reflexivity.
  - vm_compute. reflexivity.
  - reflexivity.
  - discriminate.
Defined.

Lemma order_counts_add_up_to_the_business_list_witness :
  UserProfile_objects Scenario.store !! 1 = Some Sample.profile_business.2
  ∧ ∃ c1 c2 l,
      OrderCountForBusinessView.get
        (mkRequest GET (Authenticated Sample.user_customer)) 1 Scenario.store
      = (Scenario.store, Return c1)
      ∧ CompletedOrderCountForBusinessView.get
          (mkRequest GET (Authenticated Sample.user_customer)) 1 Scenario.store
        = (Scenario.store, Return c2)
      ∧ OrderListCreateView.get_queryset
          (mkRequest GET (Authenticated Sample.user_business)) Scenario.store
        = (Scenario.store, Return l)
      ∧ 0 ≤ c1 ∧ 0 ≤ c2
      ∧ c1 + c2 + count_orders CANCELLED 1 Scenario.store = Z.of_nat (length l).
Proof.
  split; [vm_compute; reflexivity|].
  refine (order_counts_add_up_to_the_business_list Sample.user_customer
            Sample.user_business 1 Sample.profile_business.2 Scenario.store
            _ _ _).
  - vm_compute. reflexivity.
  - reflexivity.
  - reflexivity.
Defined.

Lemma offer_create_needs_a_business_profile_witness :
  OfferListCreateView.post
    (mkRequest POST (Authenticated Sample.user_customer))
    (Sample.logo_offer [Sample.package basic 1000 3]) Sample.store
  = (Sample.store, Raise forbidden).
Proof.
  refine (offer_create_needs_a_business_profile
            (Authenticated Sample.user_customer) _ Sample.store _).
  intros pk p [= <- <-]. discriminate.
Defined.

Lemma offer_update_is_for_the_owner_witness :
  Offer_objects Sample.store !! 1
    = Some (Offer.mk 1 "Logo Design" "I design a logo")
  ∧ OfferDetailView.update true
      (mkRequest PATCH (Authenticated Sample.user_customer)) 1
      (OfferData.mk (Some "Hacked") None None) Sample.store
    = (Sample.store, Raise forbidden).
Proof.
  split; [vm_compute; reflexivity|].
  refine (offer_update_is_for_the_owner true PATCH
            (Authenticated Sample.user_customer) 1
            (Offer.mk 1 "Logo Design" "I design a logo") _ Sample.store _ _ _).
  - right. reflexivity.
  - vm_compute. reflexivity.
  - intros q p [= <- <-]. discriminate.
Defined.

Lemma offer_update_without_details_leaves_details_witness :
  Offer_objects Sample.store !! 1
    = Some (Offer.mk 1 "Logo Design" "I design a logo")
  ∧ OfferDetail_objects
      (OfferDetailView.update true
         (mkRequest PATCH (Authenticated Sample.user_business)) 1
         (OfferData.mk (Some "Updated Title") None None) Sample.store).1
    = OfferDetail_objects Sample.store.
Proof.
  split; [vm_compute; reflexivity|].
  refine (proj1 (proj2 (proj2
            (offer_update_without_details_leaves_details Sample.user_business
               Sample.profile_business.2 1
               (Offer.mk 1 "Logo Design" "I design a logo") "Updated Title"
               Sample.store _ _)))).
  - vm_compute. reflexivity.
  - reflexivity.
Defined.

Lemma offer_update_saves_the_offer_before_its_details_witness :
  (OfferDetailView.update true
     (mkRequest PATCH (Authenticated Sample.user_business)) 1
     (OfferData.mk (Some "Updated Title") None
        (Some [Sample.package premium 20000 1; Sample.package premium 30000 1]))
     Sample.store).2
  = Raise Create_Detail_failed
  ∧ Offer_objects
      (OfferDetailView.update true
         (mkRequest PATCH (Authenticated Sample.user_business)) 1
         (OfferData.mk (Some "Updated Title") None
            (Some [Sample.package premium 20000 1;
                   Sample.package premium 30000 1]))
         Sample.store).1
    = <[1 := Offer.mk 1 "Updated Title" "I design a logo"]>
        (Offer_objects Sample.store).
Proof.
  split; [vm_compute; reflexivity|].
  refine (proj1 (offer_update_saves_the_offer_before_its_details true PATCH
            Sample.user_business Sample.profile_business.2 1
            (Offer.mk 1 "Logo Design" "I design a logo")
            (OfferData.mk (Some "Updated Title") None
               (Some [Sample.package premium 20000 1;
                      Sample.package premium 30000 1]))
            Sample.store _ _ _ _)).
  - right. reflexivity.
  - vm_compute. reflexivity.
  - reflexivity.
  - reflexivity.
Defined.


Lemma created_detail_is_retrieved_as_submitted_witness :
  ∃ repr,
    OfferDetailDetailView.get
      (mkRequest GET (Authenticated Sample.user_customer)) 3
      (OfferDetail_objects_create 1 (Sample.package premium 20000 1)
         Sample.store).1
    = ((OfferDetail_objects_create 1 (Sample.package premium 20000 1)
          Sample.store).1, Return repr)
    ∧ OfferDetailFull.price repr = 20000.
Proof.
  destruct (created_detail_is_retrieved_as_submitted Sample.user_customer 1
              (Sample.package premium 20000 1)
              (3, OfferDetail.mk 1 "Package" 1 1 20000 ["source files"] premium)
              Sample.store
              (OfferDetail_objects_create 1 (Sample.package premium 20000 1)
                 Sample.store).1)
    as (repr & Hget & _ & _ & _ & _ & Hprice & _).
  - vm_compute. reflexivity.
  - exists repr. split; [exact Hget|]. by injection Hprice.
Defined.

Lemma order_create_without_profile_is_a_validation_error_witness :
  OrderListCreateView.post Sample.int_field Sample.choice_field
    (mkRequest POST (Authenticated Scenario.user_no_profile))
    Sample.order_body Sample.store
  = (Sample.store, Raise (ValidationError "User Profile does not exist.")).
Proof.
  refine (proj1 (order_create_without_profile_is_a_validation_error
            Sample.int_field Sample.choice_field Scenario.user_no_profile
            Sample.order_body (OrderData.mk 1 None) Sample.store _ _)).
  - reflexivity.
  - vm_compute. reflexivity.
Defined.

Lemma order_input_with_an_undeclared_field_is_rejected_witness :
  OrderListCreateView.post Sample.int_field Sample.choice_field
    (mkRequest POST (Authenticated Sample.user_customer))
    (<["discount" := 50]> Sample.order_body) Sample.store
  = (Sample.store, Raise (ValidationError "Unexpected fields")).
Proof.
  refine (proj1 (order_input_with_an_undeclared_field_is_rejected
            Sample.int_field Sample.choice_field Sample.user_customer true
            (<["discount" := 50]> Sample.order_body) "discount" Sample.store
            _ _)).
  - exists 50. vm_compute. reflexivity.
  - apply (bool_decide_unpack _). vm_compute. exact I.
Defined.

Lemma order_create_depends_on_the_detail_id_only_witness :
  OrderListCreateView.post Sample.int_field Scenario.status_field
    (mkRequest POST (Authenticated Sample.user_customer))
    (<["status" := 2]> Sample.order_body) Sample.store
  = OrderListCreateView.post Sample.int_field Scenario.status_field
      (mkRequest POST (Authenticated Sample.user_customer))
      Sample.order_body Sample.store.
Proof.
  refine (proj1 (order_create_depends_on_the_detail_id_only Sample.int_field
            Scenario.status_field Sample.user_customer
            (<["status" := 2]> Sample.order_body) Sample.order_body
            (OrderData.mk 1 (Some COMPLETED)) (OrderData.mk 1 None)
            Sample.store _ _ _)).
  - vm_compute. reflexivity.
  - vm_compute. reflexivity.
  - reflexivity.
Defined.

Lemma review_create_needs_a_customer_profile_witness :
  ReviewListCreateView.post
    (mkRequest POST (Authenticated Sample.user_business)) (Sample.review 5)
    Sample.store
  = (Sample.store, Raise forbidden).
Proof.
  refine (review_create_needs_a_customer_profile
            (Authenticated Sample.user_business) _ Sample.store _).
  intros pk p [= <- <-]. discriminate.
Defined.

Lemma review_destroy_is_for_the_reviewer_witness :
  Review_objects Scenario.store !! 1 = Some (Review.mk 1 2 5 "Great!")
  ∧ ReviewDetailView.destroy
      (mkRequest DELETE (Authenticated Sample.user_business)) 1 Scenario.store
    = (Scenario.store, Raise forbidden).
Proof.
  split; [vm_compute; reflexivity|].
  refine (review_destroy_is_for_the_reviewer
            (Authenticated Sample.user_business) 1 (Review.mk 1 2 5 "Great!")
            Scenario.store _).
  vm_compute. reflexivity.
Defined.

Lemma review_can_be_written_again_after_deleting_witness :
  one_review_per_pair Scenario.store
  ∧ Review_objects Scenario.store !! 1 = Some (Review.mk 1 2 5 "Great!")
  ∧ UserProfile_objects Scenario.store !! 1 = Some Sample.profile_business.2
  ∧ ReviewListCreateView.post
      (mkRequest POST (Authenticated Sample.user_customer)) (Sample.review 4)
      Scenario.store
    = (Scenario.store, Raise already_reviewed).
Proof.
  split; [exact scenario_one_review_per_pair|].
  split; [vm_compute; reflexivity|].
  split; [vm_compute; reflexivity|].
  refine (proj1 (review_can_be_written_again_after_deleting
            Sample.user_customer 2 Sample.profile_customer.2 1
            (Review.mk 1 2 5 "Great!") Sample.profile_business.2
            (Sample.review 4) Scenario.store
            _ _ scenario_one_review_per_pair _ _ _ _ _ _)).
  - reflexivity.
  - reflexivity.
  - vm_compute. reflexivity.
  - reflexivity.
  - reflexivity.
  - vm_compute. reflexivity.
  - reflexivity.
  - simpl. lia.
Defined.
